(** * PDF editor: undo/redo engine, annotation store and flattening pipeline

    A shallow embedding of the PDF editor of [growth-calculator/brain.js]
    (the part after the calculator functions): the per-page undo/redo
    stacks, the in-memory annotation store with its local-storage mirror,
    and the loop of [savePDF] that draws every stored annotation onto the
    output document through [drawTextObject] and [drawImageObject].
    Around them: the loading of a file, the rendering of a page, page
    navigation and zoom, the page information of the toolbar and the
    scaling of a selected image; and, of the calculator functions,
    [calculateSimpleGrowthRate].

    Conventions of the embedding.
    - A JavaScript number is a rational ([Q]); [NaN] only arises from
      [parseInt] and is [None] there.  Rounding of binary floating point is
      not modelled, and a division is only meaningful for a non-zero divisor
      (the viewport height of a rendered page).
    - An absent property ([undefined]) is [None].
    - A JavaScript array is a list in index order: [push] appends at the
      end, [pop] removes the last element, [shift] removes the first.
    - [JSON.stringify] of a canvas snapshot is the snapshot itself: the
      serialised text stands for the value it encodes.
    - Asynchronous calls are run to completion where they are awaited; no
      other event is handled in between.
    - The editing-surface library is outside the repository.  Its canvas is
      modelled by what the code relies on: [toJSON] returns the current
      objects, [loadFromJSON] replaces them, and the mutation events
      ([object:added], [object:modified], [object:removed]) are delivered
      to [saveUndoState] once per user mutation, after the mutation. *)

From Stdlib Require Import QArith ZArith String Ascii List Lia.
From Stdlib Require Import DecimalString DecimalNat.
From stdpp Require Import base option list gmap strings.

Local Open Scope string_scope.
Local Open Scope list_scope.

(** ** Completions: a call returns normally or throws *)

Inductive JsError : Type :=
  | TypeError
  | QuotaExceededError
  | LibraryError.

Inductive Completion (A : Type) : Type :=
  | Normal (a : A)
  | Throw (e : JsError).
Arguments Normal {A} a.
Arguments Throw {A} e.

(** ** JavaScript primitives used by the editor *)

Module JS.

(** [x || d] on a number: [undefined], [0] and [NaN] are falsy. *)
Definition num_or (x : option Q) (d : Q) : Q :=
  match x with
  | Some q => if Qeq_bool q 0 then d else q
  | None => d
  end.

(** [s || d] on a string: [undefined] and the empty string are falsy. *)
Definition str_or (x : option string) (d : string) : string :=
  match x with
  | Some EmptyString => d
  | Some s => s
  | None => d
  end.

(** [!s] on a string property. *)
Definition str_falsy (x : option string) : bool :=
  match x with
  | Some EmptyString => true
  | Some _ => false
  | None => true
  end.

(** [s.includes(pat)] *)
Definition includes (pat s : string) : bool :=
  match String.index 0 pat s with
  | Some _ => true
  | None => false
  end.

(** [s.replace(c, '')] for a one-character pattern: the first occurrence
    is removed. *)
Fixpoint remove_first (c : ascii) (s : string) : string :=
  match s with
  | EmptyString => EmptyString
  | String a s' => if Ascii.eqb a c then s' else String a (remove_first c s')
  end.

(** [s.substring(i, j)] for [i <= j]. *)
Definition substring (i j : nat) (s : string) : string :=
  String.substring i (j - i) s.

Definition is_white (a : ascii) : bool :=
  let n := nat_of_ascii a in
  (Nat.eqb n 32 || (Nat.leb 9 n && Nat.leb n 13))%bool.

Fixpoint skip_white (s : string) : string :=
  match s with
  | String a s' => if is_white a then skip_white s' else s
  | EmptyString => EmptyString
  end.

(** Value of a character as a digit, in any radix up to 36. *)
Definition digit_val (a : ascii) : option Z :=
  let n := Z.of_nat (nat_of_ascii a) in
  if ((48 <=? n) && (n <=? 57))%Z%bool then Some (n - 48)%Z
  else if ((97 <=? n) && (n <=? 122))%Z%bool then Some (n - 87)%Z
  else if ((65 <=? n) && (n <=? 90))%Z%bool then Some (n - 55)%Z
  else None.

(** The longest prefix of digits of the radix, read from the left;
    [None] when there is no digit at all. *)
Fixpoint digits (radix : Z) (acc : option Z) (s : string) : option Z :=
  match s with
  | EmptyString => acc
  | String a s' =>
      match digit_val a with
      | Some d =>
          if (d <? radix)%Z
          then digits radix (Some (default 0%Z acc * radix + d)%Z) s'
          else acc
      | None => acc
      end
  end.

Definition strip_hex_prefix (s : string) : option string :=
  match s with
  | String "0" (String "x" s') => Some s'
  | String "0" (String "X" s') => Some s'
  | _ => None
  end.

(** [parseInt(s, radix)]; [radix = None] is the one-argument call.
    [None] is [NaN]: no digit, or a radix outside 2..36. *)
Definition parseInt (s : string) (radix : option Z) : option Z :=
  let s1 := skip_white s in
  let '(sign, s2) :=
    match s1 with
    | String "-" r => ((-1)%Z, r)
    | String "+" r => (1%Z, r)
    | _ => (1%Z, s1)
    end in
  let stripped (r : Z) :=
    match strip_hex_prefix s2 with
    | Some s' => (16%Z, s')
    | None => (r, s2)
    end in
  let '(r, s3) :=
    match radix with
    | None | Some 0%Z => stripped 10%Z
    | Some 16%Z => stripped 16%Z
    | Some k => (k, s2)
    end in
  if ((r <? 2) || (36 <? r))%Z%bool then None
  else
    match digits r None s3 with
    | Some v => Some (sign * v)%Z
    | None => None
    end.

End JS.

(** ** The editing surface *)

(** A serialised canvas object.  Every property is optional: snapshots
    restored from local storage are arbitrary JSON. *)
Module FabricObject.
Record t : Type := mk {
  type : option string;
  text : option string;
  fontSize : option Q;
  fill : option string;
  left : option Q;
  top : option Q;
  width : option Q;
  height : option Q;
  scaleX : option Q;
  scaleY : option Q;
  src : option string
}.
End FabricObject.

(** The value of [canvas.toJSON()], also the value kept per page in
    [AppState.annotations]. *)
Record PageAnnotations : Type := {
  objects : option (list FabricObject.t)
}.

Module Canvas.
Record t : Type := mk {
  width : Q;
  height : Q;
  _objects : list FabricObject.t
}.

Definition toJSON (c : t) : PageAnnotations :=
  {| objects := Some (_objects c) |}.

Definition loadFromJSON (json : PageAnnotations) (c : t) : t :=
  {| width := width c;
     height := height c;
     _objects := default [] (objects json) |}.

(** [canvas.clear()] *)
Definition clear (c : t) : t :=
  {| width := width c; height := height c; _objects := [] |}.
End Canvas.

(** ** State and exceptions

    The code mutates one global [AppState], writes to [localStorage] and to
    the console, and may throw.  A computation takes the state and returns
    its completion together with the state it leaves: an exception does
    not roll back what was written before it. *)

Definition M (S A : Type) : Type := S -> Completion A * S.

Definition ret {S A} (a : A) : M S A := fun s => (Normal a, s).

Definition bind {S A B} (c : M S A) (k : A -> M S B) : M S B :=
  fun s =>
    match c s with
    | (Normal a, s') => k a s'
    | (Throw e, s') => (Throw e, s')
    end.

Definition throw {S A} (e : JsError) : M S A := fun s => (Throw e, s).

(** [try { c } catch (e) { h e }] *)
Definition try_catch {S A} (c : M S A) (h : JsError -> M S A) : M S A :=
  fun s =>
    match c s with
    | (Normal a, s') => (Normal a, s')
    | (Throw e, s') => h e s'
    end.

Definition get {S} : M S S := fun s => (Normal s, s).
Definition gets {S A} (f : S -> A) : M S A := fun s => (Normal (f s), s).
Definition modify {S} (f : S -> S) : M S unit := fun s => (Normal tt, f s).

(** A completion lifted into a computation: an external call that may
    throw and leaves the state alone. *)
Definition lift {S A} (c : Completion A) : M S A := fun s => (c, s).

Declare Scope js_scope.
Delimit Scope js_scope with js.
Notation "x <- c ;; k" := (bind c (fun x => k))
  (at level 100, c at next level, right associativity) : js_scope.
Notation "c ;; k" := (bind c (fun _ => k))
  (at level 100, right associativity) : js_scope.
Local Open Scope js_scope.

(** [for (const x of xs) body] *)
Fixpoint for_of {S A} (xs : list A) (body : A -> M S unit) : M S unit :=
  match xs with
  | [] => ret tt
  | x :: xs' => body x ;; for_of xs' body
  end.

(** A property of the state that a computation keeps, whether it returns
    or throws. *)
Definition keeps {S A} (P : S -> Prop) (c : M S A) : Prop :=
  forall s, P s -> P (snd (c s)).

(** A plain JavaScript object used as a dictionary, as the list of its
    properties in the order of their creation: assignment to an existing
    key keeps the key's place, assignment to a new key appends.
    [Object.entries] enumerates them in the order of the language. *)
Module JSObject.
Section Dict.
Context {V : Type}.

Fixpoint lookup (k : string) (o : list (string * V)) : option V :=
  match o with
  | [] => None
  | (k', v) :: o' => if String.eqb k' k then Some v else lookup k o'
  end.

Fixpoint set (k : string) (v : V) (o : list (string * V)) : list (string * V) :=
  match o with
  | [] => [(k, v)]
  | (k', v') :: o' =>
      if String.eqb k' k then (k, v) :: o' else (k', v') :: set k v o'
  end.

Fixpoint delete (k : string) (o : list (string * V)) : list (string * V) :=
  match o with
  | [] => []
  | (k', v') :: o' =>
      if String.eqb k' k then o' else (k', v') :: delete k o'
  end.
End Dict.

(** [String(n)] for a page number: the property key of [obj[n]]. *)
Definition key_of_nat (n : nat) : string :=
  NilEmpty.string_of_uint (Nat.to_uint n).

(** The array index a key stands for: the key is the canonical decimal
    form of an integer below 2^32 - 1. *)
Definition array_index (k : string) : option N :=
  match NilEmpty.uint_of_string k with
  | Some u =>
      let n := N.of_uint u in
      if (String.eqb (NilEmpty.string_of_uint (N.to_uint n)) k
          && (n <? 4294967295)%N)%bool
      then Some n
      else None
  | None => None
  end.

Fixpoint insert_by_index {V} (n : N) (e : string * V) (l : list (N * (string * V)))
  : list (N * (string * V)) :=
  match l with
  | [] => [(n, e)]
  | (m, e') :: l' =>
      if (n <? m)%N then (n, e) :: l else (m, e') :: insert_by_index n e l'
  end.

(** [Object.entries(o)]: the integer keys in ascending order, then the
    other keys in the order of their creation. *)
Definition entries {V} (o : list (string * V)) : list (string * V) :=
  map snd
    (foldr (fun e acc =>
              match array_index (fst e) with
              | Some n => insert_by_index n e acc
              | None => acc
              end) [] o)
  ++ filter (fun e => array_index (fst e) = None) o.
End JSObject.

(** ** The output-document library and the rendering library *)

Definition Bytes : Type := list Byte.byte.

Module PDFLib.
(** An embedded image with its intrinsic pixel dimensions. *)
Record Image : Type := mkImage { width : Q; height : Q }.

(** A color; a component is [None] when it is [NaN]. *)
Record Color : Type := mkColor {
  red : option Q;
  green : option Q;
  blue : option Q
}.

(** One drawing call on a page.  The font of a text is always the
    embedded Helvetica. *)
Inductive DrawOp : Type :=
  | DrawText (text : string) (x y size : Q) (color : Color)
  | DrawImage (image : Image) (x y w h : Q).

(** A page: its size in points and the drawing calls made on it, oldest
    first (a later call paints over an earlier one). *)
Record Page : Type := mkPage {
  pageWidth : Q;
  pageHeight : Q;
  content : list DrawOp
}.

Abbreviation Document := (list Page).

(** The range check of [rgb] on one component: a number below 0 or above
    1 is refused; [NaN] compares false with both bounds and passes. *)
Definition in_range (x : option Q) : bool :=
  match x with
  | Some q => (Qle_bool 0 q && Qle_bool q 1)%bool
  | None => true
  end.

(** [PDFLib.rgb(r, g, b)] *)
Definition rgb (r g b : option Q) : Completion Color :=
  if (in_range r && in_range g && in_range b)%bool
  then Normal (mkColor r g b)
  else Throw LibraryError.

(** Drawing calls made one after the other on a page. *)
Definition draw_all (ops : list DrawOp) (p : Page) : Page :=
  {| pageWidth := pageWidth p;
     pageHeight := pageHeight p;
     content := content p ++ ops |}.

Definition draw (op : DrawOp) (p : Page) : Page := draw_all [op] p.
End PDFLib.

Module PdfJs.
Record Viewport : Type := mkViewport { width : Q; height : Q }.

(** A loaded document: [getViewport n s] is
    [page.getViewport({ scale: s })] of page [n] (1-indexed). *)
Record Document : Type := mkDocument {
  numPages : nat;
  getViewport : nat -> Q -> Viewport
}.

(** [pdfDoc.getPage(n)] rejects for a page number outside the document. *)
Definition getPage (d : Document) (n : Z) : Completion (Q -> Viewport) :=
  if ((1 <=? n) && (n <=? Z.of_nat (numPages d)))%Z%bool
  then Normal (getViewport d (Z.to_nat n))
  else Throw LibraryError.
End PdfJs.

(** The calls into the libraries and the browser whose outcome depends on
    data the editor does not inspect. *)
Record Libs : Type := {
  (** [pdfjsLib.getDocument({ data: bytes }).promise] *)
  getDocument : Bytes -> Completion PdfJs.Document;
  (** [PDFLib.PDFDocument.load(bytes)] *)
  PDFDocument_load : Bytes -> Completion PDFLib.Document;
  (** [fetch(src).then(res => res.arrayBuffer())] *)
  fetch : string -> Completion Bytes;
  embedPng : Bytes -> Completion PDFLib.Image;
  embedJpg : Bytes -> Completion PDFLib.Image;
  (** whether [page.drawText] can encode the text in the font; it throws
      otherwise *)
  encodable : string -> bool
}.

(** ** Global state *)

Inductive Level : Type := Info | Warn | Error.

(** A console line (the fixed part of its message) or a status message
    shown to the user. *)
Inductive LogEntry : Type :=
  | Console (lvl : Level) (msg : string)
  | StatusMessage (type : string) (text : string).

(** [localStorage]: the one item the editor uses, and whether a write is
    accepted (it throws when the quota is exceeded or storage is denied). *)
Record Storage : Type := {
  pdfEditorAnnotations : option (list (string * PageAnnotations));
  writable : bool
}.

Record AppState : Type := mkAppState {
  pdfDoc : option PdfJs.Document;
  pdfBytes : option Bytes;
  currentPage : nat;
  totalPages : nat;
  renderScale : Q;
  fabricCanvas : option Canvas.t;
  annotations : list (string * PageAnnotations);
  undoStack : gmap nat (list PageAnnotations);
  redoStack : gmap nat (list PageAnnotations);
  originalFileName : string
}.

Record World : Type := mkWorld {
  app : AppState;
  localStorage : Storage;
  console : list LogEntry;
  (** files handed to [saveAs] *)
  downloads : list (string * PDFLib.Document)
}.

Definition initialAppState : AppState :=
  {| pdfDoc := None; pdfBytes := None; currentPage := 1; totalPages := 0;
     renderScale := 3 # 2; fabricCanvas := None; annotations := [];
     undoStack := ∅; redoStack := ∅; originalFileName := "" |}.

Definition set_app (f : AppState -> AppState) (w : World) : World :=
  {| app := f (app w); localStorage := localStorage w;
     console := console w; downloads := downloads w |}.

Definition with_fabricCanvas (c : option Canvas.t) (a : AppState) : AppState :=
  {| pdfDoc := pdfDoc a; pdfBytes := pdfBytes a; currentPage := currentPage a;
     totalPages := totalPages a; renderScale := renderScale a;
     fabricCanvas := c; annotations := annotations a;
     undoStack := undoStack a; redoStack := redoStack a;
     originalFileName := originalFileName a |}.

Definition with_annotations (o : list (string * PageAnnotations)) (a : AppState) : AppState :=
  {| pdfDoc := pdfDoc a; pdfBytes := pdfBytes a; currentPage := currentPage a;
     totalPages := totalPages a; renderScale := renderScale a;
     fabricCanvas := fabricCanvas a; annotations := o;
     undoStack := undoStack a; redoStack := redoStack a;
     originalFileName := originalFileName a |}.

Definition with_undoStack (u : gmap nat (list PageAnnotations)) (a : AppState) : AppState :=
  {| pdfDoc := pdfDoc a; pdfBytes := pdfBytes a; currentPage := currentPage a;
     totalPages := totalPages a; renderScale := renderScale a;
     fabricCanvas := fabricCanvas a; annotations := annotations a;
     undoStack := u; redoStack := redoStack a;
     originalFileName := originalFileName a |}.

Definition with_redoStack (r : gmap nat (list PageAnnotations)) (a : AppState) : AppState :=
  {| pdfDoc := pdfDoc a; pdfBytes := pdfBytes a; currentPage := currentPage a;
     totalPages := totalPages a; renderScale := renderScale a;
     fabricCanvas := fabricCanvas a; annotations := annotations a;
     undoStack := undoStack a; redoStack := r;
     originalFileName := originalFileName a |}.

Definition with_currentPage (n : nat) (a : AppState) : AppState :=
  {| pdfDoc := pdfDoc a; pdfBytes := pdfBytes a; currentPage := n;
     totalPages := totalPages a; renderScale := renderScale a;
     fabricCanvas := fabricCanvas a; annotations := annotations a;
     undoStack := undoStack a; redoStack := redoStack a;
     originalFileName := originalFileName a |}.

(** The fields set when a file is loaded or dropped. *)
Definition with_file (d : option PdfJs.Document) (b : option Bytes) (a : AppState)
  : AppState :=
  {| pdfDoc := d; pdfBytes := b; currentPage := currentPage a;
     totalPages := totalPages a; renderScale := renderScale a;
     fabricCanvas := fabricCanvas a; annotations := annotations a;
     undoStack := undoStack a; redoStack := redoStack a;
     originalFileName := originalFileName a |}.

Definition with_totalPages (n : nat) (a : AppState) : AppState :=
  {| pdfDoc := pdfDoc a; pdfBytes := pdfBytes a; currentPage := currentPage a;
     totalPages := n; renderScale := renderScale a;
     fabricCanvas := fabricCanvas a; annotations := annotations a;
     undoStack := undoStack a; redoStack := redoStack a;
     originalFileName := originalFileName a |}.

Definition with_renderScale (q : Q) (a : AppState) : AppState :=
  {| pdfDoc := pdfDoc a; pdfBytes := pdfBytes a; currentPage := currentPage a;
     totalPages := totalPages a; renderScale := q;
     fabricCanvas := fabricCanvas a; annotations := annotations a;
     undoStack := undoStack a; redoStack := redoStack a;
     originalFileName := originalFileName a |}.

Definition with_originalFileName (s : string) (a : AppState) : AppState :=
  {| pdfDoc := pdfDoc a; pdfBytes := pdfBytes a; currentPage := currentPage a;
     totalPages := totalPages a; renderScale := renderScale a;
     fabricCanvas := fabricCanvas a; annotations := annotations a;
     undoStack := undoStack a; redoStack := redoStack a;
     originalFileName := s |}.

Definition log (e : LogEntry) : M World unit :=
  modify (fun w =>
    {| app := app w; localStorage := localStorage w;
       console := console w ++ [e]; downloads := downloads w |}).

Definition showMessage (text type : string) : M World unit :=
  log (StatusMessage type text).

(** [AppState.fabricCanvas.m(...)]: a [TypeError] when there is no canvas. *)
Definition the_canvas : M World Canvas.t :=
  c <- gets (fun w => fabricCanvas (app w)) ;;
  match c with
  | Some c => ret c
  | None => throw TypeError
  end.

(** ** Undo/redo system *)

Module History.

(** Entries of a page's stack; a page without a stack has none. *)
Definition entries (stack : gmap nat (list PageAnnotations)) (pageKey : nat)
  : list PageAnnotations :=
  default [] (stack !! pageKey).

(** [if (!stack[pageKey]) stack[pageKey] = [];] (an array is truthy) *)
Definition init_stack (pageKey : nat) (stack : gmap nat (list PageAnnotations))
  : gmap nat (list PageAnnotations) :=
  match stack !! pageKey with
  | Some _ => stack
  | None => <[pageKey := []]> stack
  end.

(** [stack[pageKey].push(x)]: a [TypeError] when the page has no stack. *)
Definition push (pageKey : nat) (x : PageAnnotations)
    (stack : gmap nat (list PageAnnotations))
  : Completion (gmap nat (list PageAnnotations)) :=
  match stack !! pageKey with
  | Some l => Normal (<[pageKey := l ++ [x]]> stack)
  | None => Throw TypeError
  end.

(** [stack[pageKey].pop()]: the removed last entry ([undefined] for an
    empty array) and the stack left. *)
Definition pop (pageKey : nat) (stack : gmap nat (list PageAnnotations))
  : Completion (option PageAnnotations * gmap nat (list PageAnnotations)) :=
  match stack !! pageKey with
  | Some l => Normal (last l, <[pageKey := removelast l]> stack)
  | None => Throw TypeError
  end.

(** [if (stack[pageKey].length > 50) stack[pageKey].shift();] *)
Definition limit (pageKey : nat) (stack : gmap nat (list PageAnnotations))
  : gmap nat (list PageAnnotations) :=
  match stack !! pageKey with
  | Some l => if (50 <? length l)%nat then <[pageKey := tail l]> stack else stack
  | None => stack
  end.

Definition update_undo (f : gmap nat (list PageAnnotations) ->
                            Completion (gmap nat (list PageAnnotations)))
  : M World unit :=
  u <- gets (fun w => undoStack (app w)) ;;
  u' <- lift (f u) ;;
  modify (set_app (with_undoStack u')).

Definition update_redo (f : gmap nat (list PageAnnotations) ->
                            Completion (gmap nat (list PageAnnotations)))
  : M World unit :=
  r <- gets (fun w => redoStack (app w)) ;;
  r' <- lift (f r) ;;
  modify (set_app (with_redoStack r')).

(** [canvas.loadFromJSON(state, ...)]; nothing is loaded from
    [undefined]. *)
Definition restore (state : option PageAnnotations) : M World unit :=
  c <- the_canvas ;;
  match state with
  | Some json =>
      modify (set_app (with_fabricCanvas (Some (Canvas.loadFromJSON json c))))
  | None => ret tt
  end.

(** Both stacks of a page together hold at most 50 snapshots. *)
Definition bounded (w : World) : Prop :=
  forall p, length (entries (undoStack (app w)) p)
            + length (entries (redoStack (app w)) p) <= 50.

Definition saveUndoState : M World unit :=
  pageKey <- gets (fun w => currentPage (app w)) ;;
  update_undo (fun u => Normal (init_stack pageKey u)) ;;
  update_redo (fun r => Normal (init_stack pageKey r)) ;;
  c <- the_canvas ;;
  let state := Canvas.toJSON c in
  update_undo (push pageKey state) ;;
  update_undo (fun u => Normal (limit pageKey u)) ;;
  update_redo (fun r => Normal (<[pageKey := []]> r)).

Definition undo : M World unit :=
  pageKey <- gets (fun w => currentPage (app w)) ;;
  u <- gets (fun w => undoStack (app w)) ;;
  match u !! pageKey with
  | None | Some [] => log (Console Info "Nothing to undo")
  | Some _ =>
      update_redo (fun r => Normal (init_stack pageKey r)) ;;
      c <- the_canvas ;;
      update_redo (push pageKey (Canvas.toJSON c)) ;;
      u <- gets (fun w => undoStack (app w)) ;;
      popped <- lift (pop pageKey u) ;;
      let previousState := fst popped in
      modify (set_app (with_undoStack (snd popped))) ;;
      restore previousState ;;
      log (Console Info "Undo performed")
  end.

Definition redo : M World unit :=
  pageKey <- gets (fun w => currentPage (app w)) ;;
  r <- gets (fun w => redoStack (app w)) ;;
  match r !! pageKey with
  | None | Some [] => log (Console Info "Nothing to redo")
  | Some _ =>
      c <- the_canvas ;;
      update_undo (push pageKey (Canvas.toJSON c)) ;;
      r <- gets (fun w => redoStack (app w)) ;;
      popped <- lift (pop pageKey r) ;;
      let redoState := fst popped in
      modify (set_app (with_redoStack (snd popped))) ;;
      restore redoState ;;
      log (Console Info "Redo performed")
  end.

End History.

(** ** Annotation persistence *)

Module Store.

(** [localStorage.setItem('pdfEditorAnnotations', JSON.stringify(v))] *)
Definition setItem (v : list (string * PageAnnotations)) : M World unit :=
  ls <- gets localStorage ;;
  if writable ls
  then modify (fun w =>
         {| app := app w;
            localStorage := {| pdfEditorAnnotations := Some v;
                               writable := writable ls |};
            console := console w; downloads := downloads w |})
  else throw QuotaExceededError.

Definition removeItem : M World unit :=
  modify (fun w =>
    {| app := app w;
       localStorage := {| pdfEditorAnnotations := None;
                          writable := writable (localStorage w) |};
       console := console w; downloads := downloads w |}).

Definition saveCurrentPageAnnotations : M World unit :=
  c <- gets (fun w => fabricCanvas (app w)) ;;
  match c with
  | None => ret tt
  | Some c =>
      let json := Canvas.toJSON c in
      modify (set_app (fun a =>
        with_annotations
          (JSObject.set (JSObject.key_of_nat (currentPage a)) json (annotations a)) a)) ;;
      try_catch
        (a <- gets (fun w => annotations (app w)) ;; setItem a)
        (fun e => log (Console Warn "Failed to save to localStorage:")) ;;
      log (Console Info "Annotations saved for page")
  end.

Definition restorePageAnnotations : M World unit :=
  c <- gets (fun w => fabricCanvas (app w)) ;;
  match c with
  | None => ret tt
  | Some c =>
      a <- gets app ;;
      match JSObject.lookup (JSObject.key_of_nat (currentPage a)) (annotations a) with
      | Some pageAnnotations =>
          modify (set_app (with_fabricCanvas
                             (Some (Canvas.loadFromJSON pageAnnotations c)))) ;;
          log (Console Info "Annotations restored for page")
      | None =>
          modify (set_app (with_fabricCanvas (Some (Canvas.clear c))))
      end
  end.

(** The body of [clearPageAnnotations] once the user has confirmed. *)
Definition clearPageAnnotations : M World unit :=
  c <- gets (fun w => fabricCanvas (app w)) ;;
  match c with
  | None => ret tt
  | Some c =>
      modify (set_app (with_fabricCanvas (Some (Canvas.clear c)))) ;;
      modify (set_app (fun a =>
        with_annotations
          (JSObject.delete (JSObject.key_of_nat (currentPage a)) (annotations a)) a)) ;;
      log (Console Info "annotations cleared")
  end.

(** [tryRestoreSession]; the stored text parses to the mapping it
    encodes. *)
Definition tryRestoreSession : M World unit :=
  saved <- gets (fun w => pdfEditorAnnotations (localStorage w)) ;;
  match saved with
  | Some o =>
      modify (set_app (with_annotations o)) ;;
      log (Console Info "Previous session annotations restored from localStorage")
  | None => ret tt
  end.

End Store.

(** ** Saving: flattening the annotations into the document *)

Module Flatten.

Import FabricObject.
Local Open Scope Q_scope.

(** The state while [savePDF] draws: the global state and the
    output document it loaded. *)
Definition Flat : Type := (World * PDFLib.Document)%type.

Definition in_world {A} (c : M World A) : M Flat A :=
  fun s =>
    match c (fst s) with
    | (r, w') => (r, (w', snd s))
    end.

(** Run a computation on a freshly loaded document; the document is
    what it returns. *)
Definition with_document (d : PDFLib.Document) (c : M Flat unit)
  : M World PDFLib.Document :=
  fun w =>
    match c (w, d) with
    | (Normal _, s') => (Normal (snd s'), fst s')
    | (Throw e, s') => (Throw e, fst s')
    end.

(** A drawing call on [pages\[pageIndex\]]. *)
Definition on_page (pageIndex : nat) (op : PDFLib.DrawOp) : M Flat unit :=
  modify (fun s => (fst s, alter (PDFLib.draw op) pageIndex (snd s))).

Definition hexToRgb (hex : string) : option Q * option Q * option Q :=
  let hex := JS.remove_first "#" hex in
  let part (i j : nat) :=
    match JS.parseInt (JS.substring i j hex) (Some 16%Z) with
    | Some v => Some (inject_Z v / 255)
    | None => None
    end in
  (part 0%nat 2%nat, part 2%nat 4%nat, part 4%nat 6%nat).

Section WithLibs.
Context (L : Libs).

(** [page.drawText(text, { x, y, size, font, color })] *)
Definition drawText (pageIndex : nat) (text : string) (x y size : Q)
    (color : PDFLib.Color) : M Flat unit :=
  if encodable L text
  then on_page pageIndex (PDFLib.DrawText text x y size color)
  else throw LibraryError.

Definition drawTextObject (pageIndex : nat) (textObj : FabricObject.t)
    (viewport : PdfJs.Viewport) (pageHeight : Q) : M Flat unit :=
  if JS.str_falsy (text textObj) then ret tt else
  let text := default "" (text textObj) in
  let fontSize := JS.num_or (fontSize textObj) 18 in
  let color := hexToRgb (JS.str_or (fill textObj) "#000000") in
  let fabricLeft := JS.num_or (left textObj) 0 in
  let fabricTop := JS.num_or (top textObj) 0 in
  let textHeight := JS.num_or (height textObj) fontSize in
  let scale := pageHeight / PdfJs.height viewport in
  let pdfX := fabricLeft * scale in
  let pdfY := pageHeight - (fabricTop + textHeight) * scale in
  rgb <- lift (PDFLib.rgb (fst (fst color)) (snd (fst color)) (snd color)) ;;
  drawText pageIndex text pdfX pdfY (fontSize * scale) rgb ;;
  in_world (log (Console Info "Text drawn at")).

Definition drawImageObject (pageIndex : nat) (imageObj : FabricObject.t)
    (viewport : PdfJs.Viewport) (pageHeight : Q) : M Flat unit :=
  if JS.str_falsy (src imageObj) then ret tt else
  let src := default "" (src imageObj) in
  try_catch
    (imageBytes <- lift (fetch L src) ;;
     image <- lift (if JS.includes "image/png" src
                    then embedPng L imageBytes
                    else embedJpg L imageBytes) ;;
     let imgWidth :=
       JS.num_or (width imageObj) (PDFLib.width image)
       * JS.num_or (scaleX imageObj) 1 in
     let imgHeight :=
       JS.num_or (height imageObj) (PDFLib.height image)
       * JS.num_or (scaleY imageObj) 1 in
     let fabricLeft := JS.num_or (left imageObj) 0 in
     let fabricTop := JS.num_or (top imageObj) 0 in
     let scale := pageHeight / PdfJs.height viewport in
     let pdfX := fabricLeft * scale in
     let pdfY := pageHeight - (fabricTop + imgHeight) * scale in
     on_page pageIndex
       (PDFLib.DrawImage image pdfX pdfY (imgWidth * scale) (imgHeight * scale)) ;;
     in_world (log (Console Info "Image drawn at")))
    (fun error => in_world (log (Console Error "Error drawing image:"))).

Definition is_type (obj : FabricObject.t) (name : string) : bool :=
  match type obj with
  | Some t => String.eqb t name
  | None => false
  end.

(** Body of the inner loop of [savePDF]: one annotation object. *)
Definition savePDF_object (pageIndex : nat) (viewport : PdfJs.Viewport)
    (pageHeight : Q) (obj : FabricObject.t) : M Flat unit :=
  try_catch
    (if (is_type obj "textbox" || is_type obj "text")%bool
     then drawTextObject pageIndex obj viewport pageHeight
     else if is_type obj "image"
     then drawImageObject pageIndex obj viewport pageHeight
     else ret tt)
    (fun error => in_world (log (Console Error "Error processing object on page"))).

(** Body of the outer loop of [savePDF]: one entry of
    [Object.entries(AppState.annotations)].  For a key that is not a
    number, [pageIndex] is [NaN], neither comparison of the guard holds,
    [pages\[NaN\]] is [undefined] and [page.getSize()] throws. *)
Definition savePDF_entry (pdfjs : PdfJs.Document) (renderScale : Q)
    (entry : string * PageAnnotations) : M Flat unit :=
  let pageNum := fst entry in
  let pageAnnotations := snd entry in
  pages <- gets snd ;;
  match JS.parseInt pageNum None with
  | None => throw TypeError
  | Some n =>
      let pageIndex := (n - 1)%Z in
      if ((pageIndex <? 0) || (pageIndex >=? Z.of_nat (length pages)))%Z%bool
      then ret tt
      else
        match pages !! Z.to_nat pageIndex with
        | None => throw TypeError
        | Some page =>
            let pageHeight := PDFLib.pageHeight page in
            pdfPage <- lift (PdfJs.getPage pdfjs n) ;;
            let viewport := pdfPage renderScale in
            match objects pageAnnotations with
            | Some objs =>
                for_of objs
                  (savePDF_object (Z.to_nat pageIndex) viewport pageHeight)
            | None => ret tt
            end
        end
  end.

(** [s.replace('.pdf', '_edited.pdf')]: the first occurrence. *)
Definition edited_name (s : string) : string :=
  match String.index 0 ".pdf" s with
  | Some i =>
      (String.substring 0 i s ++ "_edited.pdf"
       ++ String.substring (i + 4)%nat (String.length s - (i + 4))%nat s)%string
  | None => s
  end.

Definition saveAs (filename : string) (d : PDFLib.Document) : M World unit :=
  modify (fun w =>
    {| app := app w; localStorage := localStorage w; console := console w;
       downloads := downloads w ++ [(filename, d)] |}).

Definition savePDF : M World unit :=
  a <- gets app ;;
  match pdfBytes a, pdfDoc a with
  | Some bytes, Some pdfjs =>
      try_catch
        (showMessage "Generating PDF..." "info" ;;
         Store.saveCurrentPageAnnotations ;;
         pdfDoc <- lift (PDFDocument_load L bytes) ;;
         a <- gets app ;;
         saved <- with_document pdfDoc
                    (for_of (JSObject.entries (annotations a))
                       (savePDF_entry pdfjs (renderScale a))) ;;
         saveAs (edited_name (originalFileName a)) saved ;;
         showMessage "PDF saved successfully!" "success" ;;
         log (Console Info "PDF saved with annotations"))
        (fun error =>
           log (Console Error "Error saving PDF:") ;;
           showMessage "Failed to save PDF" "error")
  | _, _ => showMessage "No PDF loaded" "error"
  end.

(** *** What flattening is expected to leave on the pages *)

(** What one object draws when it is processed alone, on an empty page
    of the given height: one drawing call, or none when the object is
    skipped or its drawing fails. *)
Definition draws (viewport : PdfJs.Viewport) (pageHeight : Q)
    (obj : FabricObject.t) : list PDFLib.DrawOp :=
  let blank :=
    {| app := initialAppState;
       localStorage := {| pdfEditorAnnotations := None; writable := true |};
       console := []; downloads := [] |} in
  match snd (snd (savePDF_object 0 viewport pageHeight obj
                    (blank, [PDFLib.mkPage 0 pageHeight []]))) with
  | p :: _ => PDFLib.content p
  | [] => []
  end.

(** The drawing calls a store entry owes to the page of index [i]: those
    of its objects, in snapshot order, when its key is the number of
    that page. *)
Definition entry_ops (pdfjs : PdfJs.Document) (renderScale : Q)
    (i : nat) (page : PDFLib.Page) (entry : string * PageAnnotations)
  : list PDFLib.DrawOp :=
  if decide (JS.parseInt (fst entry) None = Some (Z.of_nat i + 1)%Z)
  then flat_map
         (draws (PdfJs.getViewport pdfjs (S i) renderScale)
                (PDFLib.pageHeight page))
         (default [] (objects (snd entry)))
  else [].

(** The document with, on every page, the calls owed by the entries,
    entry after entry. *)
Definition flattened (pdfjs : PdfJs.Document) (renderScale : Q)
    (entries : list (string * PageAnnotations)) (d : PDFLib.Document)
  : PDFLib.Document :=
  imap (fun i page =>
          PDFLib.draw_all
            (flat_map (entry_ops pdfjs renderScale i page) entries) page) d.

End WithLibs.

End Flatten.

(** ** The editor as a machine driven by user events *)

Module Editor.

Section WithLibs.
Context (L : Libs).

(** [initializeFabricCanvas(width, height)]: the previous canvas is
    disposed and an empty one created; [saveUndoState] is subscribed to
    its mutation events. *)
Definition initializeFabricCanvas (width height : Q) : M World unit :=
  modify (set_app (with_fabricCanvas (Some (Canvas.mk width height [])))) ;;
  log (Console Info "Fabric canvas initialized").

Definition renderCurrentPage : M World unit :=
  a <- gets app ;;
  match pdfDoc a with
  | None => ret tt
  | Some pdfjs =>
      try_catch
        (match fabricCanvas a with
         | Some _ => Store.saveCurrentPageAnnotations
         | None => ret tt
         end ;;
         page <- lift (PdfJs.getPage pdfjs (Z.of_nat (currentPage a))) ;;
         let viewport := page (renderScale a) in
         initializeFabricCanvas (PdfJs.width viewport) (PdfJs.height viewport) ;;
         Store.restorePageAnnotations ;;
         log (Console Info "Rendered page"))
        (fun error =>
           log (Console Error "Error rendering page:") ;;
           showMessage "Failed to render page" "error")
  end.

Definition previousPage : M World unit :=
  a <- gets app ;;
  if (1 <? currentPage a)%nat
  then modify (set_app (with_currentPage (currentPage a - 1))) ;;
       renderCurrentPage
  else ret tt.

Definition nextPage : M World unit :=
  a <- gets app ;;
  if (currentPage a <? totalPages a)%nat
  then modify (set_app (with_currentPage (currentPage a + 1))) ;;
       renderCurrentPage
  else ret tt.

(** [handleFile(file)] for a file of type [application/pdf]. *)
Definition handleFile (name : string) (arrayBuffer : Bytes) : M World unit :=
  modify (set_app (with_originalFileName name)) ;;
  try_catch
    (showMessage "Loading PDF..." "info" ;;
     modify (set_app (fun a => with_file (pdfDoc a) (Some arrayBuffer) a)) ;;
     pdfjs <- lift (getDocument L arrayBuffer) ;;
     modify (set_app (fun a => with_file (Some pdfjs) (pdfBytes a) a)) ;;
     modify (set_app (with_totalPages (PdfJs.numPages pdfjs))) ;;
     modify (set_app (with_currentPage 1)) ;;
     log (Console Info "PDF loaded") ;;
     modify (set_app (with_annotations [])) ;;
     modify (set_app (with_undoStack ∅)) ;;
     modify (set_app (with_redoStack ∅)) ;;
     renderCurrentPage ;;
     showMessage "PDF loaded successfully!" "success")
    (fun error =>
       log (Console Error "Error loading PDF:") ;;
       showMessage "Failed to load PDF" "error").

(** [loadNewFile()] once the user has confirmed. *)
Definition loadNewFile : M World unit :=
  modify (set_app (with_file None None)) ;;
  modify (set_app (with_annotations [])) ;;
  modify (set_app (with_undoStack ∅)) ;;
  modify (set_app (with_redoStack ∅)) ;;
  Store.removeItem.

(** A user mutation of the canvas (an object added, modified or
    removed): the canvas holds the new objects when the event reaches
    [saveUndoState].  There is no such event without a canvas. *)
Definition mutate (objs : list FabricObject.t) : M World unit :=
  c <- gets (fun w => fabricCanvas (app w)) ;;
  match c with
  | Some c =>
      modify (set_app (with_fabricCanvas
                         (Some (Canvas.mk (Canvas.width c) (Canvas.height c) objs)))) ;;
      History.saveUndoState
  | None => ret tt
  end.

Inductive Event : Type :=
  | Mutate (objs : list FabricObject.t)
  | Undo
  | Redo
  | PreviousPage
  | NextPage
  | Zoom (scale : Q)
  | ClearPage
  | SavePDF
  | HandleFile (name : string) (arrayBuffer : Bytes)
  | LoadNewFile.

Definition dispatch (e : Event) : M World unit :=
  match e with
  | Mutate objs => mutate objs
  | Undo => History.undo
  | Redo => History.redo
  | PreviousPage => previousPage
  | NextPage => nextPage
  | Zoom scale =>
      modify (set_app (with_renderScale scale)) ;; renderCurrentPage
  | ClearPage => Store.clearPageAnnotations
  | SavePDF => Flatten.savePDF L
  | HandleFile name arrayBuffer => handleFile name arrayBuffer
  | LoadNewFile => loadNewFile
  end.

(** The state when the page has loaded: [tryRestoreSession] has run on
    whatever local storage held. *)
Definition boot (ls : Storage) : World :=
  snd (Store.tryRestoreSession
         {| app := initialAppState; localStorage := ls;
            console := []; downloads := [] |}).

(** The events are handled one after the other; a handler that throws
    leaves the state it reached and the next event is handled. *)
Fixpoint run (es : list Event) (w : World) : World :=
  match es with
  | [] => w
  | e :: es' => run es' (snd (dispatch e w))
  end.

End WithLibs.

End Editor.

(** ** A small document and a few annotations to run the editor on *)

Module Examples.
Local Open Scope Q_scope.

(** A US Letter page, 612 x 792 points. *)
Definition letter : PDFLib.Page := PDFLib.mkPage 612 792 [].

Definition twoPages : PdfJs.Document :=
  PdfJs.mkDocument 2
    (fun n scale => PdfJs.mkViewport (612 * scale) (792 * scale)).

Definition libs : Libs :=
  {| getDocument := fun _ => Normal twoPages;
     PDFDocument_load := fun _ => Normal [letter; letter];
     fetch := fun src =>
       if JS.includes "missing" src then Throw LibraryError else Normal [];
     embedPng := fun _ => Normal (PDFLib.mkImage 200 100);
     embedJpg := fun _ => Normal (PDFLib.mkImage 320 240);
     encodable := fun _ => true |}.

Definition note : FabricObject.t :=
  FabricObject.mk (Some "textbox") (Some "Hello") (Some 18) (Some "#000000")
    (Some 100) (Some 50) (Some 200) (Some 30) (Some 1) (Some 1) None.

(** An image shown at half its size. *)
Definition photo : FabricObject.t :=
  FabricObject.mk (Some "image") None None None
    (Some 40) (Some 10) (Some 200) (Some 100) (Some (1 # 2)) (Some (1 # 2))
    (Some "data:image/png;base64,iVBORw0KGgo=").

(** An image whose data cannot be read. *)
Definition broken : FabricObject.t :=
  FabricObject.mk (Some "image") None None None
    (Some 40) (Some 10) (Some 200) (Some 100) (Some 1) (Some 1)
    (Some "blob:missing").

(** A text whose height is zero. *)
Definition flat : FabricObject.t :=
  FabricObject.mk (Some "text") (Some "thin") (Some 18) (Some "#ff0000")
    (Some 100) (Some 50) (Some 200) (Some 0) None None None.


Definition bareImage : FabricObject.t :=
  FabricObject.mk (Some "image") None None None
    (Some 40) (Some 10) (Some 200) (Some 100) None None
    (Some "data:image/jpeg;base64,/9j/4AAQ").

(** An object of a type the editor does not draw. *)
Definition shape : FabricObject.t :=
  FabricObject.mk (Some "rect") (Some "label") None (Some "#00ff00")
    (Some 10) (Some 10) (Some 50) (Some 50) None None (Some "data:image/png;base64,AA==").

Definition viewport1 : PdfJs.Viewport := PdfJs.getViewport twoPages 1 (3 # 2).

Definition blank : World :=
  {| app := initialAppState;
     localStorage := {| pdfEditorAnnotations := None; writable := true |};
     console := []; downloads := [] |}.

(** Two pages with two objects each; one image is unreadable. *)
Definition store : list (string * PageAnnotations) :=
  [("1", {| objects := Some [note; photo] |});
   ("2", {| objects := Some [broken; flat] |})].

Definition storage : Storage :=
  {| pdfEditorAnnotations := None; writable := true |}.

Definition fullStorage : Storage :=
  {| pdfEditorAnnotations := None; writable := false |}.

(** A file is opened and two text boxes are added to page 1. *)
Definition edited : World :=
  Editor.run libs
    [Editor.HandleFile "a.pdf" []; Editor.Mutate [note];
     Editor.Mutate [note; note]]
    (Editor.boot storage).

(** The same, followed by two undos. *)
Definition undone : World :=
  Editor.run libs [Editor.Undo; Editor.Undo] edited.

(** A file is opened and fifty mutations fill the undo stack of page 1. *)
Definition busy : list Editor.Event :=
  Editor.HandleFile "a.pdf" [] :: repeat (Editor.Mutate [note]) 50.
End Examples.

(** ** The rest of the editor and the growth-rate calculator *)

Module Toolbar.
Local Open Scope Q_scope.

(** What [updatePageInfo] writes to the page: the label and the
    [disabled] flags of the two navigation buttons. *)
Record PageInfo : Type := {
  pageInfo : string;
  btnPrevPage : bool;
  btnNextPage : bool
}.

Definition updatePageInfo (a : AppState) : PageInfo :=
  {| pageInfo := ("Page " ++ JSObject.key_of_nat (currentPage a) ++ " of "
                  ++ JSObject.key_of_nat (totalPages a))%string;
     btnPrevPage := Nat.eqb (currentPage a) 1;
     btnNextPage := Nat.eqb (currentPage a) (totalPages a) |}.

(** [Math.min(a, b)] *)
Definition Math_min (a b : Q) : Q := if Qle_bool a b then a else b.

(** The factor [handleImageSelect] passes to [img.scale] for an image of
    the given pixel size on a PDF canvas of the given size; 1 (the factor
    of a new image) when it does not scale. *)
Definition imageScale (canvasWidth canvasHeight imgWidth imgHeight : Q) : Q :=
  let maxWidth := canvasWidth * (3 # 10) in
  let maxHeight := canvasHeight * (3 # 10) in
  if (negb (Qle_bool imgWidth maxWidth) || negb (Qle_bool imgHeight maxHeight))%bool
  then Math_min (maxWidth / imgWidth) (maxHeight / imgHeight)
  else 1.

(** The image object [handleImageSelect] adds to the canvas once the
    file is read: scaled to fit, placed at (100, 100). *)
Definition selectedImage (canvasWidth canvasHeight : Q) (dataURL : string)
    (imgWidth imgHeight : Q) : FabricObject.t :=
  let scale := imageScale canvasWidth canvasHeight imgWidth imgHeight in
  FabricObject.mk (Some "image") None None None (Some 100) (Some 100)
    (Some imgWidth) (Some imgHeight) (Some scale) (Some scale) (Some dataURL).

End Toolbar.

Module Calculator.
Local Open Scope Q_scope.

(** [calculateSimpleGrowthRate(oldValue, newValue)]; the left value is
    the message of the error thrown. *)
Definition calculateSimpleGrowthRate (oldValue newValue : Q) : string + Q :=
  if Qeq_bool oldValue 0
  then inl "Old value cannot be zero for growth rate calculation"
  else inr (((newValue - oldValue) / oldValue) * 100).

End Calculator.

(** ** Runs of the history and predicates on the state *)

Module Runs.

(** The snapshot of a canvas holding the given objects. *)
Definition snapshot (objs : list FabricObject.t) : PageAnnotations :=
  {| objects := Some objs |}.

(** The last [n] elements of a list. *)
Definition lastn {A} (n : nat) (l : list A) : list A :=
  drop (length l - n) l.




(** The state is sound for the history operations: without a canvas both
    stacks of every page are empty, and a page with something to redo has
    an undo stack. *)
Definition sound (w : World) : Prop :=
  (fabricCanvas (app w) = None ->
   forall p, History.entries (undoStack (app w)) p = []
             /\ History.entries (redoStack (app w)) p = []) /\
  (forall p, History.entries (redoStack (app w)) p <> [] ->
             is_Some (undoStack (app w) !! p)).

(** The current page is a page of the document (or page 1 when there is
    none). *)
Definition page_in_bounds (w : World) : Prop :=
  1 <= currentPage (app w)
  /\ (currentPage (app w) <= totalPages (app w) \/ currentPage (app w) = 1).


(** The pages of a document keep their number and their sizes, and what
    was drawn on them stays first. *)
Definition extends (d d' : PDFLib.Document) : Prop :=
  Forall2 (fun p p' =>
             PDFLib.pageWidth p' = PDFLib.pageWidth p
             /\ PDFLib.pageHeight p' = PDFLib.pageHeight p
             /\ exists ops, PDFLib.content p' = PDFLib.content p ++ ops) d d'.

End Runs.

(** * Properties *)

(** ** The model on concrete inputs *)

Module Checks.
Local Open Scope Q_scope.

Example parseInt_page_keys :
  (JS.parseInt "1" None, JS.parseInt "12" None, JS.parseInt " 7px" None,
   JS.parseInt "-3" None, JS.parseInt "0x1f" None, JS.parseInt "page" None,
   JS.parseInt "" None)
  = (Some 1%Z, Some 12%Z, Some 7%Z, Some (-3)%Z, Some 31%Z, None, None).
Proof. reflexivity. Qed.

Example parseInt_hex_pairs :
  (JS.parseInt "ff" (Some 16%Z), JS.parseInt "0A" (Some 16%Z),
   JS.parseInt "g0" (Some 16%Z), JS.parseInt "f" (Some 16%Z),
   JS.parseInt "0x" (Some 16%Z))
  = (Some 255%Z, Some 10%Z, None, Some 15%Z, None).
Proof. reflexivity. Qed.

Example hexToRgb_orange :
  Flatten.hexToRgb "#ff8000" = (Some (255 # 255), Some (128 # 255), Some (0 # 255)).
Proof. reflexivity. Qed.

Example hexToRgb_named_color :
  Flatten.hexToRgb "red" = (None, Some (13 # 255), None).
Proof. reflexivity. Qed.

Example entries_order :
  JSObject.entries [("10", 1%nat); ("note", 2%nat); ("2", 3%nat); ("01", 4%nat)]
  = [("2", 3%nat); ("10", 1%nat); ("note", 2%nat); ("01", 4%nat)].
Proof. reflexivity. Qed.

Example key_of_page : JSObject.key_of_nat 12 = "12".
Proof. reflexivity. Qed.

Example edited_name_pdf : Flatten.edited_name "report.pdf" = "report_edited.pdf".
Proof. reflexivity. Qed.

(** The worked example of the source: a US Letter page rendered at scale
    1.5 (canvas 918 x 1188), an object at left 100, top 50 of height 30 is
    drawn at x = 66.67, y = 738.67. *)
Example conversion_reference :
  exists x y size col,
    snd (snd (Flatten.drawTextObject Examples.libs 0 Examples.note
                Examples.viewport1 792 (Examples.blank, [Examples.letter])))
    = [PDFLib.draw (PDFLib.DrawText "Hello" x y size col) Examples.letter]
    /\ PdfJs.height Examples.viewport1 == 1188
    /\ x == 200 / 3 /\ y == 2216 / 3 /\ size == 12.
Proof. do 4 eexists. split; [vm_compute; reflexivity|]. repeat split. Qed.

(** Opening a file, adding a text box and saving hands one file to
    [saveAs], with the text drawn on its first page. *)
Example save_after_edit :
  let w := Editor.run Examples.libs
             [Editor.HandleFile "a.pdf" []; Editor.Mutate [Examples.note];
              Editor.SavePDF]
             (Editor.boot Examples.storage) in
  map (fun f => (fst f, map (fun p => length (PDFLib.content p)) (snd f)))
      (downloads w)
  = [("a_edited.pdf", [1%nat; 0%nat])].
Proof. vm_compute. reflexivity. Qed.

(** An entry whose key is not a number: [page] is [undefined] and the
    exception leaves the loop; [savePDF] then reports a failed save. *)
Example entry_with_foreign_key :
  fst (Flatten.savePDF_entry Examples.libs Examples.twoPages (3 # 2)
         ("cover", {| objects := Some [Examples.note] |})
         (Examples.blank, [Examples.letter; Examples.letter]))
  = Throw TypeError.
Proof. reflexivity. Qed.

End Checks.


(** ** Undo/redo: what each operation does to a state with a canvas *)

Module HistoryFacts.
Import History.

Lemma push_init_stack p x u :
  push p x (init_stack p u) = Normal (<[p := entries u p ++ [x]]> u).
Proof.
  unfold push, init_stack, entries.
  destruct (u !! p) eqn:E; simpl.
  - now rewrite E.
  - now rewrite lookup_insert_eq, insert_insert_eq.
Qed.

Lemma insert_init_stack p (l : list PageAnnotations) u :
  <[p := l]> (init_stack p u) = <[p := l]> u.
Proof.
  unfold init_stack. destruct (u !! p); now rewrite ?insert_insert_eq.
Qed.

Lemma entries_insert p q (l : list PageAnnotations) u :
  entries (<[p := l]> u) q = if decide (p = q) then l else entries u q.
Proof.
  unfold entries. rewrite lookup_insert. now destruct (decide (p = q)).
Qed.

Lemma entries_init_stack p q u : entries (init_stack p u) q = entries u q.
Proof.
  unfold init_stack. destruct (u !! p) eqn:E; [reflexivity|].
  rewrite entries_insert. destruct (decide (p = q)) as [<-|]; [|reflexivity].
  unfold entries. now rewrite E.
Qed.

Lemma entries_limit p q u :
  entries (limit p u) q =
    if decide (p = q)
    then (if (50 <? length (entries u p))%nat then tail (entries u p) else entries u p)
    else entries u q.
Proof.
  unfold limit. destruct (u !! p) eqn:E.
  - unfold entries at 2 3 4. rewrite E. simpl.
    destruct (50 <? length l)%nat.
    + rewrite entries_insert. now destruct (decide (p = q)).
    + destruct (decide (p = q)) as [<-|]; [|reflexivity].
      unfold entries. now rewrite E.
  - destruct (decide (p = q)) as [<-|]; [|reflexivity].
    unfold entries. now rewrite E.
Qed.

Lemma length_tail {A} (l : list A) : length (tail l) = length l - 1.
Proof. destruct l; simpl; lia. Qed.

Lemma pop_snoc p u l (x : PageAnnotations) :
  u !! p = Some (l ++ [x]) -> pop p u = Normal (Some x, <[p := l]> u).
Proof.
  intros H. unfold pop. now rewrite H, last_snoc, removelast_last.
Qed.

(** [saveUndoState] on a state with a canvas. *)
Lemma saveUndoState_run w c :
  fabricCanvas (app w) = Some c ->
  saveUndoState w =
    (Normal tt,
     set_app (fun a =>
       with_redoStack (<[currentPage a := []]> (redoStack a))
         (with_undoStack
            (limit (currentPage a)
               (<[currentPage a := entries (undoStack a) (currentPage a)
                                   ++ [Canvas.toJSON c]]> (undoStack a))) a)) w).
Proof.
  intros Hc. destruct w as [a ls co dl]. destruct a. simpl in *. subst.
  unfold saveUndoState, update_undo, update_redo, the_canvas, bind, gets,
    lift, modify, set_app, ret, throw. simpl.
  rewrite push_init_stack. unfold with_redoStack, with_undoStack; simpl.
  now rewrite insert_init_stack.
Qed.

(** [undo] on a state with a canvas and a non-empty undo stack. *)
Lemma undo_run w c l x :
  fabricCanvas (app w) = Some c ->
  undoStack (app w) !! currentPage (app w) = Some (l ++ [x]) ->
  undo w =
    (Normal tt,
     mkWorld
       (with_fabricCanvas (Some (Canvas.loadFromJSON x c))
          (with_undoStack (<[currentPage (app w) := l]> (undoStack (app w)))
             (with_redoStack
                (<[currentPage (app w) :=
                     entries (redoStack (app w)) (currentPage (app w))
                     ++ [Canvas.toJSON c]]> (redoStack (app w)))
                (app w))))
       (localStorage w)
       (console w ++ [Console Info "Undo performed"])
       (downloads w)).
Proof.
  intros Hc Hu. destruct w as [a ls co dl]. destruct a. simpl in *. subst.
  assert (E : exists y l', l ++ [x] = y :: l') by (destruct l; simpl; eauto).
  destruct E as (y & l' & E).
  unfold undo, bind, gets. simpl. rewrite Hu, E.
  unfold update_redo, the_canvas, restore, the_canvas, log, bind, gets, lift, modify,
    set_app, ret, throw. simpl.
  rewrite push_init_stack. simpl. rewrite (pop_snoc _ _ l x) by now rewrite Hu.
  reflexivity.
Qed.

(** [redo] on a state with a canvas and a non-empty redo stack. *)
Lemma redo_run w c l x lu :
  fabricCanvas (app w) = Some c ->
  redoStack (app w) !! currentPage (app w) = Some (l ++ [x]) ->
  undoStack (app w) !! currentPage (app w) = Some lu ->
  redo w =
    (Normal tt,
     mkWorld
       (with_fabricCanvas (Some (Canvas.loadFromJSON x c))
          (with_redoStack (<[currentPage (app w) := l]> (redoStack (app w)))
             (with_undoStack
                (<[currentPage (app w) := lu ++ [Canvas.toJSON c]]>
                   (undoStack (app w)))
                (app w))))
       (localStorage w)
       (console w ++ [Console Info "Redo performed"])
       (downloads w)).
Proof.
  intros Hc Hr Hu. destruct w as [a ls co dl]. destruct a. simpl in *. subst.
  assert (E : exists y l', l ++ [x] = y :: l') by (destruct l; simpl; eauto).
  destruct E as (y & l' & E).
  unfold redo, bind, gets. simpl. rewrite Hr, E.
  unfold update_undo, the_canvas, restore, the_canvas, log, bind, gets, lift, modify,
    set_app, ret, throw. simpl.
  unfold push. rewrite Hu. simpl. rewrite (pop_snoc _ _ l x) by now rewrite Hr.
  reflexivity.
Qed.

End HistoryFacts.

(** ** Properties kept by a computation, whatever its completion *)

Section Keeps.
Context {S : Type} (P : S -> Prop).

Lemma keeps_ret {A} (a : A) : keeps P (ret a).
Proof. now intros s H. Qed.

Lemma keeps_throw {A} e : keeps P (@throw S A e).
Proof. now intros s H. Qed.

Lemma keeps_gets {A} (f : S -> A) : keeps P (gets f).
Proof. now intros s H. Qed.

Lemma keeps_lift {A} (r : Completion A) : keeps P (lift r).
Proof. now intros s H. Qed.

Lemma keeps_modify (f : S -> S) : (forall s, P s -> P (f s)) -> keeps P (modify f).
Proof. intros Hf s H. now apply Hf. Qed.

Lemma keeps_bind {A B} (c : M S A) (k : A -> M S B) :
  keeps P c -> (forall a, keeps P (k a)) -> keeps P (bind c k).
Proof.
  intros Hc Hk s H. unfold bind. specialize (Hc s H).
  destruct (c s) as [[a|e] s']; simpl in *; auto. now apply Hk.
Qed.

Lemma keeps_try_catch {A} (c : M S A) (h : JsError -> M S A) :
  keeps P c -> (forall e, keeps P (h e)) -> keeps P (try_catch c h).
Proof.
  intros Hc Hh s H. unfold try_catch. specialize (Hc s H).
  destruct (c s) as [[a|e] s']; simpl in *; auto. now apply Hh.
Qed.

Lemma keeps_for_of {A} (xs : list A) (body : A -> M S unit) :
  (forall x, keeps P (body x)) -> keeps P (for_of xs body).
Proof.
  intros Hb. induction xs as [|x xs IH]; simpl.
  - apply keeps_ret.
  - apply keeps_bind; auto.
Qed.
End Keeps.

Lemma keeps_in_world (P : World -> Prop) {A} (c : M World A) :
  keeps P c -> keeps (fun s : Flatten.Flat => P (fst s)) (Flatten.in_world c).
Proof.
  intros Hc s H. unfold Flatten.in_world. specialize (Hc (fst s) H).
  now destruct (c (fst s)).
Qed.

Lemma keeps_with_document (P : World -> Prop) d (c : M Flatten.Flat unit) :
  keeps (fun s : Flatten.Flat => P (fst s)) c -> keeps P (Flatten.with_document d c).
Proof.
  intros Hc w H. unfold Flatten.with_document. specialize (Hc (w, d) H).
  now destruct (c (w, d)) as [[a|e] s'].
Qed.

(** A step of the structural argument: split a sequence, a handler or a
    branch; a write that leaves the property's fields alone closes by
    conversion. *)
Ltac keeps_step :=
  first
    [ apply keeps_ret | apply keeps_throw | apply keeps_gets | apply keeps_lift
    | apply keeps_bind; [|intros ?]
    | apply keeps_try_catch; [|intros ?]
    | apply keeps_for_of; intros ?
    | apply keeps_in_world
    | apply keeps_with_document
    | apply keeps_modify; let H := fresh in intros ? H; exact H
    | match goal with
      | |- keeps _ (match ?x with _ => _ end) => destruct x
      end ].

Ltac keeps_auto := repeat keeps_step.

(** ** The bound on the history of a page *)

Module HistoryBound.
Import History HistoryFacts.

Lemma keeps_log e : keeps bounded (log e).
Proof. unfold log. keeps_auto. Qed.

Lemma keeps_showMessage t ty : keeps bounded (showMessage t ty).
Proof. apply keeps_log. Qed.

Lemma keeps_saveCurrentPageAnnotations : keeps bounded Store.saveCurrentPageAnnotations.
Proof.
  unfold Store.saveCurrentPageAnnotations, Store.setItem, log. keeps_auto.
Qed.

Lemma keeps_restorePageAnnotations : keeps bounded Store.restorePageAnnotations.
Proof. unfold Store.restorePageAnnotations, log. keeps_auto. Qed.

Lemma keeps_clearPageAnnotations : keeps bounded Store.clearPageAnnotations.
Proof. unfold Store.clearPageAnnotations, log. keeps_auto. Qed.

Lemma keeps_bounded_tryRestoreSession : keeps bounded Store.tryRestoreSession.
Proof. unfold Store.tryRestoreSession, log. keeps_auto. Qed.

Lemma keeps_renderCurrentPage : keeps bounded Editor.renderCurrentPage.
Proof.
  unfold Editor.renderCurrentPage, Editor.initializeFabricCanvas.
  keeps_auto; try apply keeps_saveCurrentPageAnnotations;
    try apply keeps_restorePageAnnotations; try apply keeps_log.
Qed.
Lemma keeps_savePDF L : keeps bounded (Flatten.savePDF L).
Proof.
  unfold Flatten.savePDF, Flatten.saveAs.
  keeps_auto; try apply keeps_saveCurrentPageAnnotations;
    try apply keeps_showMessage; try apply keeps_log.
  unfold Flatten.savePDF_entry, Flatten.savePDF_object, Flatten.drawTextObject,
    Flatten.drawImageObject, Flatten.drawText, Flatten.on_page.
  keeps_auto; apply keeps_log.
Qed.

Lemma keeps_previousPage : keeps bounded Editor.previousPage.
Proof. unfold Editor.previousPage. keeps_auto. Qed.

Lemma keeps_nextPage : keeps bounded Editor.nextPage.
Proof. unfold Editor.nextPage. keeps_auto. Qed.

Lemma entries_empty p : entries ∅ p = [].
Proof. unfold entries. now rewrite lookup_empty. Qed.

Lemma keeps_reset_undo : keeps bounded (modify (set_app (with_undoStack ∅))).
Proof.
  apply keeps_modify. intros w H p. specialize (H p). simpl.
  rewrite entries_empty. simpl. lia.
Qed.

Lemma keeps_reset_redo : keeps bounded (modify (set_app (with_redoStack ∅))).
Proof.
  apply keeps_modify. intros w H p. specialize (H p). simpl.
  rewrite entries_empty. simpl. lia.
Qed.

Lemma keeps_handleFile L name bytes : keeps bounded (Editor.handleFile L name bytes).
Proof.
  unfold Editor.handleFile. keeps_auto;
    try apply keeps_reset_undo; try apply keeps_reset_redo.
Qed.

Lemma keeps_loadNewFile : keeps bounded Editor.loadNewFile.
Proof.
  unfold Editor.loadNewFile, Store.removeItem. keeps_auto;
    try apply keeps_reset_undo; try apply keeps_reset_redo.
Qed.

Lemma keeps_mutate objs : keeps bounded (Editor.mutate objs).
Proof.
  intros w H. unfold Editor.mutate, bind, gets. simpl.
  destruct (fabricCanvas (app w)) as [c|] eqn:Hc; [|exact H].
  unfold modify. simpl.
  erewrite saveUndoState_run by reflexivity. simpl.
  intros p. specialize (H p). simpl.
  rewrite entries_limit, !entries_insert.
  destruct (decide (currentPage (app w) = p)) as [<-|]; [|exact H].
  rewrite !decide_True by reflexivity. simpl.
  destruct (50 <? _)%nat eqn:E.
  - rewrite length_tail, length_app. simpl. lia.
  - apply Nat.ltb_ge in E. rewrite length_app in *. simpl in *. lia.
Qed.

Lemma keeps_undo : keeps bounded undo.
Proof.
  intros w H.
  destruct (undoStack (app w) !! currentPage (app w)) as [l|] eqn:Hu.
  2:{ unfold undo, bind, gets. simpl. rewrite Hu. now apply keeps_log. }
  destruct l as [|x l _] using rev_ind.
  { unfold undo, bind, gets. simpl. rewrite Hu. now apply keeps_log. }
  destruct (fabricCanvas (app w)) as [c|] eqn:Hc.
  - rewrite (undo_run w c l x Hc Hu). intros p. specialize (H p).
    cbn [snd app with_fabricCanvas with_undoStack with_redoStack undoStack redoStack].
    rewrite !entries_insert.
    destruct (decide (currentPage (app w) = p)) as [<-|]; [|exact H].
    unfold entries in H at 1. rewrite Hu in H. simpl in H.
    rewrite length_app in *. simpl in *. lia.
  - unfold undo, bind, gets. simpl. rewrite Hu.
    destruct (l ++ [x]) as [|y l0] eqn:E; [now destruct l|].
    unfold update_redo, the_canvas, bind, gets, lift, modify, throw.
    cbn [fst snd app set_app with_redoStack fabricCanvas].
    rewrite Hc. intros p.
    cbn [fst snd app set_app with_redoStack undoStack redoStack].
    now rewrite entries_init_stack.
Qed.

Lemma keeps_redo : keeps bounded redo.
Proof.
  intros w H.
  destruct (redoStack (app w) !! currentPage (app w)) as [l|] eqn:Hr.
  2:{ unfold redo, bind, gets. simpl. rewrite Hr. now apply keeps_log. }
  destruct l as [|x l _] using rev_ind.
  { unfold redo, bind, gets. simpl. rewrite Hr. now apply keeps_log. }
  destruct (fabricCanvas (app w)) as [c|] eqn:Hc;
    [destruct (undoStack (app w) !! currentPage (app w)) as [lu|] eqn:Hu|].
  - rewrite (redo_run w c l x lu Hc Hr Hu). intros p. specialize (H p).
    cbn [snd app with_fabricCanvas with_undoStack with_redoStack undoStack redoStack].
    rewrite !entries_insert.
    destruct (decide (currentPage (app w) = p)) as [<-|]; [|exact H].
    unfold entries in H. rewrite Hu, Hr in H. simpl in H.
    rewrite length_app in *. simpl in *. lia.
  - unfold redo, bind, gets. simpl. rewrite Hr.
    destruct (l ++ [x]) as [|y l0] eqn:E; [now destruct l|].
    unfold update_undo, the_canvas, bind, gets, lift, modify, throw, ret. simpl.
    rewrite Hc. simpl. unfold push. rewrite Hu. exact H.
  - unfold redo, bind, gets. simpl. rewrite Hr.
    destruct (l ++ [x]) as [|y l0] eqn:E; [now destruct l|].
    unfold the_canvas, bind, gets, throw. simpl. rewrite Hc. exact H.
Qed.

Lemma keeps_dispatch L e : keeps bounded (Editor.dispatch L e).
Proof.
  destruct e; simpl.
  - apply keeps_mutate.
  - apply keeps_undo.
  - apply keeps_redo.
  - apply keeps_previousPage.
  - apply keeps_nextPage.
  - apply keeps_bind; [|intros ?; apply keeps_renderCurrentPage].
    apply keeps_modify. intros w H. exact H.
  - apply keeps_clearPageAnnotations.
  - apply keeps_savePDF.
  - apply keeps_handleFile.
  - apply keeps_loadNewFile.
Qed.

Lemma bounded_boot ls : bounded (Editor.boot ls).
Proof.
  unfold Editor.boot. apply (keeps_bounded_tryRestoreSession).
  intros p. cbn [app initialAppState undoStack redoStack].
  rewrite entries_empty. simpl. lia.
Qed.

Lemma bounded_run L es w : bounded w -> bounded (Editor.run L es w).
Proof.
  revert w. induction es as [|e es IH]; intros w H; simpl; [exact H|].
  apply IH. now apply keeps_dispatch.
Qed.

End HistoryBound.

(** ** The undo/redo engine: specified properties *)

Module HistoryClaims.
Import History HistoryFacts HistoryBound.



(** C4.  A fresh mutation of the canvas (an object added, modified or
    removed), in any state and so also after any number of undos, is
    handled without an exception and leaves the redo stack of the page
    empty; so does the handler [saveUndoState] itself. *)
Theorem fresh_mutation_clears_redo (w : World) (objs : list FabricObject.t) :
  is_Some (fabricCanvas (app w)) ->
  (fst (saveUndoState w) = Normal tt /\
   redoStack (app (snd (saveUndoState w))) !! currentPage (app w) = Some []) /\
  (fst (Editor.mutate objs w) = Normal tt /\
   currentPage (app (snd (Editor.mutate objs w))) = currentPage (app w) /\
   redoStack (app (snd (Editor.mutate objs w))) !! currentPage (app w) = Some []).
Proof.
  intros [c Hc]. split.
  - rewrite (saveUndoState_run w c Hc). split; [reflexivity|].
    cbn [snd set_app app with_redoStack redoStack]. apply lookup_insert_eq.
  - unfold Editor.mutate, bind, gets, modify. cbn [fst snd]. rewrite Hc.
    erewrite saveUndoState_run by reflexivity.
    repeat split. cbn [snd set_app app with_redoStack redoStack].
    apply lookup_insert_eq.
Qed.

Lemma fresh_mutation_clears_redo_witness :
  length (entries (redoStack (app Examples.undone)) 1) = 2
  /\ redoStack (app (snd (Editor.mutate [Examples.note] Examples.undone))) !! 1
     = Some [].
Proof.
  split; [vm_compute; reflexivity|].
  apply (fresh_mutation_clears_redo Examples.undone [Examples.note]).
  vm_compute. eauto.
Defined.

(** C3.  From start-up, after any sequence of user events (mutations,
    undos, redos, page changes, zooms, clears, saves, files opened or
    closed), the undo stack of every page holds at most 50 entries, the
    pushes of [redo] included; and a push by [saveUndoState] onto a stack
    of 50 entries drops the oldest one and keeps the others in order,
    while a shorter stack just grows. *)
Theorem undo_stack_bounded (L : Libs) (ls : Storage) (es : list Editor.Event) :
  let w := Editor.run L es (Editor.boot ls) in
  (forall p, length (entries (undoStack (app w)) p) <= 50) /\
  (forall c l,
     fabricCanvas (app w) = Some c ->
     undoStack (app w) !! currentPage (app w) = Some l ->
     fst (saveUndoState w) = Normal tt /\
     entries (undoStack (app (snd (saveUndoState w)))) (currentPage (app w))
     = if (length l <? 50)%nat then l ++ [Canvas.toJSON c]
       else tail l ++ [Canvas.toJSON c]).
Proof.
  intros w.
  assert (Hb : bounded w) by (apply bounded_run, bounded_boot).
  split.
  - intros p. specialize (Hb p). lia.
  - intros c l Hc Hu. rewrite (saveUndoState_run w c Hc). split; [reflexivity|].
    cbn [snd set_app app with_redoStack with_undoStack undoStack].
    rewrite entries_limit, !entries_insert, !decide_True by reflexivity.
    specialize (Hb (currentPage (app w))).
    unfold entries in *. rewrite Hu in *. simpl in Hb |- *.
    rewrite length_app. simpl.
    destruct (length l <? 50)%nat eqn:E1; destruct (50 <? length l + 1)%nat eqn:E2;
      try reflexivity.
    + apply Nat.ltb_lt in E1, E2. lia.
    + destruct l; [simpl in *; apply Nat.ltb_lt in E2; lia | reflexivity].
    + apply Nat.ltb_ge in E1, E2. lia.
Qed.

Lemma undo_stack_bounded_witness :
  let w := Editor.run Examples.libs Examples.busy (Editor.boot Examples.storage) in
  length (entries (undoStack (app w)) 1) = 50 /\
  entries (undoStack (app (snd (saveUndoState w)))) 1
  = tail (entries (undoStack (app w)) 1) ++ [Canvas.toJSON
       (Canvas.mk 918 1188 [Examples.note])].
Proof.
  intros w. split; [vm_compute; reflexivity|].
  destruct (undo_stack_bounded Examples.libs Examples.storage Examples.busy)
    as [_ H].
  destruct (H (Canvas.mk ((612 * (3#2))%Q) ((792 * (3#2))%Q) [Examples.note])
              (entries (undoStack (app w)) 1)) as [_ H'];
    [vm_compute; reflexivity | vm_compute; reflexivity |].
  vm_compute. reflexivity.
Defined.

End HistoryClaims.

(** ** The annotation store *)

Module StoreFacts.

Lemma lookup_set_eq {V} k (v : V) o : JSObject.lookup k (JSObject.set k v o) = Some v.
Proof.
  induction o as [|[k' v'] o IH]; simpl.
  - now rewrite String.eqb_refl.
  - destruct (String.eqb k' k) eqn:E; simpl.
    + now rewrite String.eqb_refl.
    + now rewrite E.
Qed.

Lemma lookup_set_ne {V} k k' (v : V) o :
  k <> k' -> JSObject.lookup k' (JSObject.set k v o) = JSObject.lookup k' o.
Proof.
  intros Hne. induction o as [|[k0 v0] o IH]; simpl.
  - apply String.eqb_neq in Hne. now rewrite Hne.
  - destruct (String.eqb k0 k) eqn:E; simpl.
    + apply String.eqb_eq in E. subst k0.
      apply String.eqb_neq in Hne. now rewrite Hne.
    + now rewrite IH.
Qed.

End StoreFacts.

Module StoreClaims.
Import StoreFacts.

(** C6.  When the page's annotations are saved and the write to local
    storage fails, the call still returns normally, the store holds the
    new snapshot for the current page, every other page's entry is as
    before, and local storage is untouched. *)
Theorem save_survives_write_failure (w : World) (c : Canvas.t) :
  fabricCanvas (app w) = Some c ->
  writable (localStorage w) = false ->
  let key := JSObject.key_of_nat (currentPage (app w)) in
  let w' := snd (Store.saveCurrentPageAnnotations w) in
  fst (Store.saveCurrentPageAnnotations w) = Normal tt /\
  JSObject.lookup key (annotations (app w')) = Some (Canvas.toJSON c) /\
  (forall k, k <> key ->
     JSObject.lookup k (annotations (app w')) = JSObject.lookup k (annotations (app w))) /\
  localStorage w' = localStorage w /\
  In (Console Warn "Failed to save to localStorage:") (console w').
Proof.
  intros Hc Hw key w'. subst w'.
  unfold Store.saveCurrentPageAnnotations, Store.setItem, try_catch, log, bind,
    gets, modify, throw, ret.
  cbn [fst snd]. rewrite Hc. cbn [fst snd set_app app localStorage]. rewrite Hw.
  cbn [fst snd app annotations with_annotations localStorage console].
  repeat split.
  - apply lookup_set_eq.
  - intros k Hk. now apply lookup_set_ne.
  - apply in_or_app. left. apply in_or_app. right. now left.
Qed.

Lemma save_survives_write_failure_witness :
  let w := mkWorld (app Examples.edited) Examples.fullStorage [] [] in
  JSObject.lookup "1" (annotations (app (snd (Store.saveCurrentPageAnnotations w))))
  = Some {| objects := Some [Examples.note; Examples.note] |}.
Proof.
  intros w.
  apply (save_survives_write_failure w
           (Canvas.mk (1836 # 2) (2376 # 2) [Examples.note; Examples.note])).
  - vm_compute. reflexivity.
  - reflexivity.
Defined.

End StoreClaims.

(** ** Keys written by the editor are read back as their page number *)

Module KeyFacts.
Import JS.

Ltac digit_step :=
  cbn [digits];
  match goal with
  | |- context [digit_val ?c] =>
      let v := eval vm_compute in (digit_val c) in
      change (digit_val c) with v
  end;
  cbn [Z.ltb Z.compare Pos.compare Pos.compare_cont from_option id].

Lemma digits_of_uint u a :
  digits 10 (Some (Z.of_nat a)) (NilEmpty.string_of_uint u)
  = Some (Z.of_nat (Nat.of_uint_acc u a)).
Proof.
  revert a. induction u; intros a; cbn [NilEmpty.string_of_uint Nat.of_uint_acc];
    [reflexivity|..];
    digit_step; rewrite <- IHu; do 2 f_equal; rewrite Nat.tail_mul_spec; lia.
Qed.

Lemma to_uint_nonnil n : Nat.to_uint n <> Decimal.Nil.
Proof.
  intros H. pose proof (DecimalNat.Unsigned.to_of (Nat.to_uint n)) as E.
  rewrite DecimalNat.Unsigned.of_to, H in E. discriminate.
Qed.

(** [parseInt(String(n))] is [n]. *)
Lemma parseInt_key_of_nat n :
  parseInt (JSObject.key_of_nat n) None = Some (Z.of_nat n).
Proof.
  unfold JSObject.key_of_nat.
  rewrite <- (DecimalNat.Unsigned.of_to n) at 2.
  pose proof (to_uint_nonnil n) as Hnn.
  unfold Nat.of_uint.
  destruct (Nat.to_uint n) as [|u|u|u|u|u|u|u|u|u|u]; [congruence|..];
    cbn [NilEmpty.string_of_uint Nat.of_uint_acc]; unfold parseInt;
    cbn [skip_white]; 
    match goal with
    | |- context [is_white ?c] =>
        let v := eval vm_compute in (is_white c) in
        change (is_white c) with v
    end; cbv iota;
    match goal with
    | |- context [strip_hex_prefix ?s] =>
        replace (strip_hex_prefix s) with (@None string)
          by (destruct u; reflexivity)
    end;
    cbv beta iota zeta; cbn [Z.ltb Z.compare Pos.compare Pos.compare_cont orb];
    digit_step;
    match goal with
    | |- context [digits 10 (Some ?z) ?s] =>
        let k := eval vm_compute in (Z.to_nat z) in
        change (digits 10 (Some z) s) with (digits 10 (Some (Z.of_nat k)) s);
        rewrite (digits_of_uint _ k)
    end;
    rewrite Z.mul_1_l; reflexivity.
Qed.

(** A store whose keys were written by the editor has only numeric
    keys. *)
Lemma editor_keys_are_numbers (pages : list (nat * PageAnnotations)) :
  Forall (fun e => is_Some (parseInt (fst e) None))
         (map (fun pe => (JSObject.key_of_nat (fst pe), snd pe)) pages).
Proof.
  induction pages as [|[n pa] pages IH]; constructor; [|exact IH].
  cbn [fst]. rewrite parseInt_key_of_nat. eauto.
Qed.

End KeyFacts.

(** ** Flattening: what the drawing functions do *)

Module FlattenFacts.
Import Flatten FabricObject.
Local Open Scope Q_scope.

Lemma num_or_pos (q d : Q) : 0 < q -> JS.num_or (Some q) d = q.
Proof.
  intros H. unfold JS.num_or. destruct (Qeq_bool q 0) eqn:E; [|reflexivity].
  apply Qeq_bool_iff in E. rewrite E in H. now apply Qlt_irrefl in H.
Qed.


Lemma str_falsy_false s : JS.str_falsy s = false -> exists t, s = Some t /\ t <> "".
Proof.
  destruct s as [[|a t]|]; simpl; try discriminate. intros _. eexists.
  split; [reflexivity|discriminate].
Qed.

Lemma str_truthy t : t <> "" -> JS.str_falsy (Some t) = false.
Proof. destruct t; [congruence|reflexivity]. Qed.




Section WithLibs.
Context (L : Libs).


(** An image that can be fetched and embedded: one [drawImage] call. *)
Lemma drawImageObject_run i obj vp ph w d s bytes img :
  src obj = Some s -> s <> "" ->
  fetch L s = Normal bytes ->
  (if JS.includes "image/png" s then embedPng L bytes else embedJpg L bytes)
  = Normal img ->
  let scale := ph / PdfJs.height vp in
  let imgWidth := JS.num_or (width obj) (PDFLib.width img) * JS.num_or (scaleX obj) 1 in
  let imgHeight := JS.num_or (height obj) (PDFLib.height img) * JS.num_or (scaleY obj) 1 in
  drawImageObject L i obj vp ph (w, d) =
    (Normal tt,
     (snd (log (Console Info "Image drawn at") w),
      alter (PDFLib.draw
               (PDFLib.DrawImage img
                  (JS.num_or (left obj) 0 * scale)
                  (ph - (JS.num_or (top obj) 0 + imgHeight) * scale)
                  (imgWidth * scale) (imgHeight * scale))) i d)).
Proof.
  intros Hs Hne Hf He scale iw ih. unfold drawImageObject.
  rewrite Hs, (str_truthy s Hne). cbn [from_option id].
  unfold try_catch, bind, lift. rewrite Hf, He. reflexivity.
Qed.






(** An entry whose key is a number outside the pages of the document
    is skipped: nothing at all changes. *)
Lemma savePDF_entry_skip pdfjs rs e n s :
  JS.parseInt (fst e) None = Some n ->
  (n < 1 \/ Z.of_nat (length (snd s)) < n)%Z ->
  savePDF_entry L pdfjs rs e s = (Normal tt, s).
Proof.
  intros Hn Hout. unfold savePDF_entry, bind, gets. rewrite Hn.
  destruct (_ || _)%bool eqn:E; [reflexivity|].
  apply orb_false_iff in E. destruct E as [E1 E2].
  apply Z.ltb_ge in E1. rewrite Z.geb_leb in E2. apply Z.leb_gt in E2.
  cbn [snd] in *. lia.
Qed.





End WithLibs.
End FlattenFacts.

Module FlattenClaims.
Import Flatten FabricObject FlattenFacts.
Local Open Scope Q_scope.







Lemma is_type_true obj name : is_type obj name = true <-> type obj = Some name.
Proof.
  unfold is_type. destruct (type obj) as [t|]; [|split; discriminate].
  rewrite String.eqb_eq. split; congruence.
Qed.

Lemma is_type_false obj name : type obj <> Some name -> is_type obj name = false.
Proof.
  intros H. destruct (is_type obj name) eqn:E; [|reflexivity].
  now apply is_type_true in E.
Qed.

Lemma black : hexToRgb "#000000" = (Some (0 # 255), Some (0 # 255), Some (0 # 255)).
Proof. reflexivity. Qed.



(** C10.  The save loop draws nothing and logs nothing for an object
    whose type is none of ['textbox'], ['text'], ['image'], for a text
    whose [text] is absent or empty, and for an image whose [src] is
    absent or empty: the state after the object is the state before it. *)
Theorem only_text_and_image_drawn (L : Libs) (i : nat) (obj : FabricObject.t)
    (vp : PdfJs.Viewport) (ph : Q) (s : Flat) :
  (type obj <> Some "textbox" -> type obj <> Some "text" ->
   type obj <> Some "image" ->
   savePDF_object L i vp ph obj s = (Normal tt, s)) /\
  (type obj = Some "textbox" \/ type obj = Some "text" ->
   JS.str_falsy (text obj) = true ->
   savePDF_object L i vp ph obj s = (Normal tt, s)) /\
  (type obj = Some "image" ->
   JS.str_falsy (src obj) = true ->
   savePDF_object L i vp ph obj s = (Normal tt, s)).
Proof.
  repeat split.
  - intros H1 H2 H3. unfold savePDF_object.
    now rewrite !is_type_false by assumption.
  - intros Ht Hf. unfold savePDF_object, drawTextObject.
    replace (is_type obj "textbox" || is_type obj "text")%bool with true.
    + now rewrite Hf.
    + symmetry. apply orb_true_iff. rewrite !is_type_true. exact Ht.
  - intros Ht Hf. unfold savePDF_object, drawImageObject.
    rewrite !is_type_false by (rewrite Ht; discriminate).
    apply is_type_true in Ht. now rewrite Ht, Hf.
Qed.

Lemma only_text_and_image_drawn_witness :
  savePDF_object Examples.libs 0 Examples.viewport1 792 Examples.shape
    (Examples.blank, [Examples.letter])
  = (Normal tt, (Examples.blank, [Examples.letter])).
Proof.
  apply (proj1 (only_text_and_image_drawn Examples.libs 0 Examples.shape
                  Examples.viewport1 792 (Examples.blank, [Examples.letter])));
    intros H; vm_compute in H; discriminate.
Defined.


(** The number of pages never changes while the store is processed. *)
Lemma keeps_pages_in_world {A} (Q : PDFLib.Document -> Prop) (c : M World A) :
  keeps (fun s : Flat => Q (snd s)) (in_world c).
Proof. intros s H. unfold in_world. now destruct (c (fst s)). Qed.

Lemma keeps_length_on_page N i op :
  keeps (fun s : Flat => length (snd s) = N) (on_page i op).
Proof.
  apply keeps_modify. intros s H. cbn [snd]. now rewrite length_alter.
Qed.

Lemma keeps_length_entry L pdfjs rs N e :
  keeps (fun s : Flat => length (snd s) = N) (savePDF_entry L pdfjs rs e).
Proof.
  unfold savePDF_entry, savePDF_object, drawTextObject, drawImageObject, drawText.
  keeps_auto;
    first [apply keeps_pages_in_world | apply keeps_length_on_page].
Qed.

Lemma for_of_app {S A} (xs ys : list A) (body : A -> M S unit) s :
  for_of (xs ++ ys) body s = bind (for_of xs body) (fun _ => for_of ys body) s.
Proof.
  revert s. induction xs as [|x xs IH]; intros s; [reflexivity|].
  cbn [for_of List.app]. unfold bind in *.
  destruct (body x s) as [[[]|err] s1]; [apply IH|reflexivity].
Qed.

(** C7.  A store entry whose key is a number outside [1 .. number of
    pages] is skipped by the save loop: processing it returns normally
    and leaves the document, its pages and the rest of the state exactly
    as they were; and the whole loop over a store containing the entry
    does what it does on the store without it. *)
Theorem out_of_range_key_skipped (L : Libs) (pdfjs : PdfJs.Document) (rs : Q)
    (pageNum : string) (pageAnnotations : PageAnnotations) (n : Z) (s : Flat) :
  JS.parseInt pageNum None = Some n ->
  (n < 1 \/ Z.of_nat (length (snd s)) < n)%Z ->
  savePDF_entry L pdfjs rs (pageNum, pageAnnotations) s = (Normal tt, s) /\
  (forall before after,
     for_of (before ++ (pageNum, pageAnnotations) :: after)
       (savePDF_entry L pdfjs rs) s
     = for_of (before ++ after) (savePDF_entry L pdfjs rs) s).
Proof.
  intros Hn Hout. split.
  - now apply (savePDF_entry_skip L pdfjs rs (pageNum, pageAnnotations) n).
  - intros before after. rewrite !for_of_app. unfold bind.
    pose proof (keeps_for_of (fun s0 : Flat => length (snd s0) = length (snd s))
                  before (savePDF_entry L pdfjs rs)
                  (keeps_length_entry L pdfjs rs _) s eq_refl) as Hlen.
    destruct (for_of before (savePDF_entry L pdfjs rs) s) as [[[]|err] s1];
      [|reflexivity].
    cbn [snd] in Hlen. cbn [for_of]. unfold bind.
    rewrite (savePDF_entry_skip L pdfjs rs (pageNum, pageAnnotations) n s1 Hn)
      by (rewrite Hlen; exact Hout).
    reflexivity.
Qed.

Lemma out_of_range_key_skipped_witness :
  savePDF_entry Examples.libs Examples.twoPages (3 # 2)
    ("3", {| objects := Some [Examples.note] |})
    (Examples.blank, [Examples.letter; Examples.letter])
  = (Normal tt, (Examples.blank, [Examples.letter; Examples.letter])).
Proof.
  apply (out_of_range_key_skipped Examples.libs Examples.twoPages (3 # 2) "3"
           {| objects := Some [Examples.note] |} 3
           (Examples.blank, [Examples.letter; Examples.letter])).
  - reflexivity.
  - right. cbn. lia.
Defined.



(** On the example store the first page receives its text and then its
    image, the second page only its text: the unreadable image is
    skipped. *)
Example flattened_store :
  map (fun p => map (fun op => match op with
                               | PDFLib.DrawText t _ _ _ _ => t
                               | PDFLib.DrawImage _ _ _ _ _ => "<image>"
                               end) (PDFLib.content p))
      (flattened Examples.libs Examples.twoPages (3 # 2) Examples.store
         [Examples.letter; Examples.letter])
  = [["Hello"; "<image>"]; ["thin"]].
Proof. vm_compute. reflexivity. Qed.

End FlattenClaims.

(** * Further properties *)

(** ** The history: empty stacks, other pages, contents after mutations *)

Module HistoryExtras.
Import History HistoryFacts Runs.


(** The guards of [undo] and [redo]. *)
Lemma undo_redo_empty (w : World) :
  (entries (undoStack (app w)) (currentPage (app w)) = [] ->
   undo w = (Normal tt,
             mkWorld (app w) (localStorage w)
               (console w ++ [Console Info "Nothing to undo"]) (downloads w))) /\
  (entries (redoStack (app w)) (currentPage (app w)) = [] ->
   redo w = (Normal tt,
             mkWorld (app w) (localStorage w)
               (console w ++ [Console Info "Nothing to redo"]) (downloads w))).
Proof.
  unfold entries. split; intros H.
  - unfold undo, bind, gets. cbn [fst snd].
    destruct (undoStack (app w) !! currentPage (app w)) as [[|x l]|];
      try discriminate; reflexivity.
  - unfold redo, bind, gets. cbn [fst snd].
    destruct (redoStack (app w) !! currentPage (app w)) as [[|x l]|];
      try discriminate; reflexivity.
Qed.

(** X1.  Undo with nothing to undo, and redo with nothing to redo (the
    page has no stack or an empty one), return normally and change nothing
    but the console, canvas or no canvas. *)
Theorem nothing_to_undo_or_redo (w : World) :
  (entries (undoStack (app w)) (currentPage (app w)) = [] ->
   undo w = (Normal tt,
             mkWorld (app w) (localStorage w)
               (console w ++ [Console Info "Nothing to undo"]) (downloads w))) /\
  (entries (redoStack (app w)) (currentPage (app w)) = [] ->
   redo w = (Normal tt,
             mkWorld (app w) (localStorage w)
               (console w ++ [Console Info "Nothing to redo"]) (downloads w))).
Proof.
  unfold entries. split; intros H.
  - unfold undo, bind, gets. cbn [fst snd].
    destruct (undoStack (app w) !! currentPage (app w)) as [[|x l]|];
      try discriminate; reflexivity.
  - unfold redo, bind, gets. cbn [fst snd].
    destruct (redoStack (app w) !! currentPage (app w)) as [[|x l]|];
      try discriminate; reflexivity.
Qed.

Lemma nothing_to_undo_or_redo_witness :
  app (snd (undo Examples.blank)) = app Examples.blank.
Proof.
  rewrite (proj1 (nothing_to_undo_or_redo Examples.blank)); reflexivity.
Defined.

(** What any of the three history operations can do to the stacks. *)
Lemma saveUndoState_other w q :
  q <> currentPage (app w) ->
  entries (undoStack (app (snd (saveUndoState w)))) q = entries (undoStack (app w)) q
  /\ entries (redoStack (app (snd (saveUndoState w)))) q = entries (redoStack (app w)) q.
Proof.
  intros Hq. destruct (fabricCanvas (app w)) as [c|] eqn:Hc.
  - rewrite (saveUndoState_run w c Hc).
    cbn [snd set_app app with_redoStack with_undoStack undoStack redoStack].
    rewrite entries_limit, !entries_insert.
    rewrite !decide_False by congruence. split; reflexivity.
  - unfold saveUndoState, update_undo, update_redo, the_canvas, bind, gets, lift,
      modify, throw.
    cbn [fst snd app set_app with_redoStack with_undoStack fabricCanvas
         undoStack redoStack].
    rewrite Hc.
    cbn [fst snd app set_app with_redoStack with_undoStack fabricCanvas
         undoStack redoStack].
    now rewrite !entries_init_stack.
Qed.

Lemma undo_other w q :
  q <> currentPage (app w) ->
  entries (undoStack (app (snd (undo w)))) q = entries (undoStack (app w)) q
  /\ entries (redoStack (app (snd (undo w)))) q = entries (redoStack (app w)) q.
Proof.
  intros Hq.
  destruct (undoStack (app w) !! currentPage (app w)) as [l|] eqn:Hu.
  2:{ rewrite (proj1 (undo_redo_empty w)); [split; reflexivity|].
      unfold entries. now rewrite Hu. }
  destruct l as [|x l _] using rev_ind.
  { rewrite (proj1 (undo_redo_empty w)); [split; reflexivity|].
    unfold entries. now rewrite Hu. }
  destruct (fabricCanvas (app w)) as [c|] eqn:Hc.
  - rewrite (undo_run w c l x Hc Hu).
    cbn [snd app with_fabricCanvas with_undoStack with_redoStack undoStack redoStack].
    rewrite !entries_insert, !decide_False by congruence. split; reflexivity.
  - unfold undo, bind, gets. cbn [fst snd]. rewrite Hu.
    destruct (l ++ [x]) as [|y l0] eqn:E; [now destruct l|].
    unfold update_redo, the_canvas, bind, gets, lift, modify, throw.
    cbn [fst snd app set_app with_redoStack fabricCanvas].
    rewrite Hc.
    cbn [fst snd app set_app with_redoStack undoStack redoStack].
    now rewrite entries_init_stack.
Qed.

Lemma redo_other w q :
  q <> currentPage (app w) ->
  entries (undoStack (app (snd (redo w)))) q = entries (undoStack (app w)) q
  /\ entries (redoStack (app (snd (redo w)))) q = entries (redoStack (app w)) q.
Proof.
  intros Hq.
  destruct (redoStack (app w) !! currentPage (app w)) as [l|] eqn:Hr.
  2:{ rewrite (proj2 (undo_redo_empty w)); [split; reflexivity|].
      unfold entries. now rewrite Hr. }
  destruct l as [|x l _] using rev_ind.
  { rewrite (proj2 (undo_redo_empty w)); [split; reflexivity|].
    unfold entries. now rewrite Hr. }
  destruct (fabricCanvas (app w)) as [c|] eqn:Hc;
    [destruct (undoStack (app w) !! currentPage (app w)) as [lu|] eqn:Hu|].
  - rewrite (redo_run w c l x lu Hc Hr Hu).
    cbn [snd app with_fabricCanvas with_undoStack with_redoStack undoStack redoStack].
    rewrite !entries_insert, !decide_False by congruence. split; reflexivity.
  - unfold redo, bind, gets. cbn [fst snd]. rewrite Hr.
    destruct (l ++ [x]) as [|y l0] eqn:E; [now destruct l|].
    unfold update_undo, the_canvas, bind, gets, lift, modify, throw, ret.
    cbn [fst snd]. rewrite Hc. cbn [fst snd]. unfold push. rewrite Hu.
    split; reflexivity.
  - unfold redo, bind, gets. cbn [fst snd]. rewrite Hr.
    destruct (l ++ [x]) as [|y l0] eqn:E; [now destruct l|].
    unfold the_canvas, bind, gets, throw. cbn [fst snd]. rewrite Hc.
    split; reflexivity.
Qed.

(** X2.  The histories of the pages are independent: a mutation event, an
    undo or a redo on the current page, whether it returns or throws,
    leaves both stacks of every other page as they were. *)
Theorem history_of_other_pages_untouched (w : World) (q : nat) :
  q <> currentPage (app w) ->
  forall op, op = saveUndoState \/ op = undo \/ op = redo ->
    entries (undoStack (app (snd (op w)))) q = entries (undoStack (app w)) q
    /\ entries (redoStack (app (snd (op w)))) q = entries (redoStack (app w)) q.
Proof.
  intros Hq op [->|[->| ->]].
  - now apply saveUndoState_other.
  - now apply undo_other.
  - now apply redo_other.
Qed.

Lemma history_of_other_pages_untouched_witness :
  entries (undoStack (app (snd (undo Examples.edited)))) 2
  = entries (undoStack (app Examples.edited)) 2.
Proof.
  apply (history_of_other_pages_untouched Examples.edited 2); [|auto].
  vm_compute. discriminate.
Defined.

Lemma lastn_short {A} n (l : list A) : length l <= n -> lastn n l = l.
Proof.
  intros H. unfold lastn. now replace (length l - n) with 0 by lia.
Qed.

Lemma lastn_app_lastn {A} n (a b : list A) :
  lastn n (lastn n a ++ b) = lastn n (a ++ b).
Proof.
  destruct (decide (length a <= n)) as [Ha|Ha].
  { now rewrite (lastn_short n a Ha). }
  unfold lastn. rewrite !length_app, length_drop.
  destruct (decide (length b <= n)) as [Hb|Hb].
  - rewrite !drop_app_le by (rewrite ?length_drop; lia).
    rewrite drop_drop. do 2 f_equal. lia.
  - rewrite !drop_app_ge by (rewrite ?length_drop; lia).
    rewrite length_drop. f_equal. lia.
Qed.

Lemma last_cons_default {A} (x d : A) l : List.last (x :: l) d = List.last l x.
Proof.
  revert x d. induction l as [|y l IH]; intros x d; [reflexivity|].
  change (List.last (x :: y :: l) d) with (List.last (y :: l) d).
  now rewrite !IH.
Qed.

Lemma limit_push_lastn (l : list PageAnnotations) x :
  length l <= 50 ->
  (if (50 <? length (l ++ [x]))%nat then tail (l ++ [x]) else l ++ [x])
  = lastn 50 (l ++ [x]).
Proof.
  intros H. unfold lastn. rewrite length_app. cbn [length].
  destruct (50 <? length l + 1)%nat eqn:E.
  - apply Nat.ltb_lt in E. replace (length l + 1 - 50) with 1 by lia.
    now destruct l.
  - apply Nat.ltb_ge in E. now replace (length l + 1 - 50) with 0 by lia.
Qed.



Lemma mutate_run objs w c :
  fabricCanvas (app w) = Some c ->
  Editor.mutate objs w =
    (Normal tt,
     set_app (fun a =>
       with_redoStack (<[currentPage a := []]> (redoStack a))
         (with_undoStack
            (limit (currentPage a)
               (<[currentPage a := entries (undoStack a) (currentPage a)
                                   ++ [snapshot objs]]> (undoStack a)))
            (with_fabricCanvas
               (Some (Canvas.mk (Canvas.width c) (Canvas.height c) objs)) a))) w).
Proof.
  intros Hc. unfold Editor.mutate, bind, gets, modify. cbn [fst snd].
  rewrite Hc. now erewrite saveUndoState_run by reflexivity.
Qed.

(** X3.  After any number of mutations on a page whose undo stack holds at
    most 50 entries, that stack holds the last 50 of: its former entries
    followed by the snapshots taken at the mutations, in order; the redo
    stack is empty after the first of them, and the page, the canvas size
    and the other pages' stacks are as before. *)
Theorem undo_stack_after_mutations (L : Libs) (objss : list (list FabricObject.t))
    (w : World) (c : Canvas.t) :
  fabricCanvas (app w) = Some c ->
  length (entries (undoStack (app w)) (currentPage (app w))) <= 50 ->
  let w' := Editor.run L (map Editor.Mutate objss) w in
  let p := currentPage (app w) in
  currentPage (app w') = p /\
  entries (undoStack (app w')) p
  = lastn 50 (entries (undoStack (app w)) p ++ map snapshot objss) /\
  (objss <> [] -> entries (redoStack (app w')) p = []) /\
  fabricCanvas (app w')
  = Some (Canvas.mk (Canvas.width c) (Canvas.height c)
            (List.last objss (Canvas._objects c))).
Proof.
  revert w c. induction objss as [|objs objss IH]; intros w c Hc Hlen w' p.
  - subst w'. cbn [map Editor.run]. rewrite app_nil_r, lastn_short by exact Hlen.
    repeat split; [congruence|]. rewrite Hc. now destruct c.
  - subst w'. cbn [map Editor.run Editor.dispatch].
    rewrite (mutate_run objs w c Hc). cbn [snd].
    set (w1 := set_app _ w).
    assert (Hp1 : currentPage (app w1) = currentPage (app w)) by reflexivity.
    assert (Hu1 : entries (undoStack (app w1)) (currentPage (app w))
                  = lastn 50 (entries (undoStack (app w)) (currentPage (app w))
                              ++ [snapshot objs])).
    { subst w1. cbn [set_app app with_redoStack with_undoStack undoStack].
      rewrite entries_limit, !entries_insert, !decide_True by reflexivity.
      now apply limit_push_lastn. }
    assert (Hr1 : entries (redoStack (app w1)) (currentPage (app w)) = []).
    { subst w1. cbn [set_app app with_redoStack redoStack].
      now rewrite entries_insert, decide_True. }
    destruct (IH w1 (Canvas.mk (Canvas.width c) (Canvas.height c) objs) eq_refl)
      as (Hp & Hu & Hr & Hcv).
    { rewrite Hp1, Hu1. unfold lastn. rewrite length_drop. lia. }
    rewrite Hp1 in *. subst p. repeat split.
    + exact Hp.
    + rewrite Hu, Hu1, lastn_app_lastn, <- app_assoc. reflexivity.
    + intros _. destruct objss as [|o os]; [exact Hr1|apply Hr; discriminate].
    + rewrite Hcv. cbn [Canvas.width Canvas.height Canvas._objects].
      now rewrite last_cons_default.
Qed.

Lemma undo_stack_after_mutations_witness :
  let w := Editor.run Examples.libs [Editor.HandleFile "a.pdf" []]
             (Editor.boot Examples.storage) in
  entries (undoStack (app (Editor.run Examples.libs
             (map Editor.Mutate [[Examples.note]; [Examples.note; Examples.photo]]) w))) 1
  = lastn 50 ([] ++ map snapshot [[Examples.note]; [Examples.note; Examples.photo]]).
Proof.
  intros w.
  refine (proj1 (proj2 (undo_stack_after_mutations Examples.libs
            [[Examples.note]; [Examples.note; Examples.photo]] w
            (Canvas.mk (1836 # 2) (2376 # 2) []) _ _))).
  - vm_compute. reflexivity.
  - vm_compute. lia.
Defined.










End HistoryExtras.

(** ** Invariants of the history over all runs of the editor *)

Module HistoryInvariants.
Import History HistoryFacts HistoryExtras Runs.

Lemma keeps_modify_modify {S A} (P : S -> Prop) (f g : S -> S) (k : M S A) :
  (forall s, P s -> P (g (f s))) -> keeps P k ->
  keeps P (bind (modify f) (fun _ => bind (modify g) (fun _ => k))).
Proof. intros Hfg Hk s H. unfold bind, modify. cbn. apply Hk. now apply Hfg. Qed.

Section Invariant.
(** A property of the state that looks only at the two stacks and at
    whether there is a canvas, and that the history operations and the
    reset of both stacks keep. *)
Context (P : World -> Prop).
Hypothesis P_fields : forall w w',
  undoStack (app w') = undoStack (app w) ->
  redoStack (app w') = redoStack (app w) ->
  (is_Some (fabricCanvas (app w)) -> is_Some (fabricCanvas (app w'))) ->
  P w -> P w'.
Hypothesis P_reset : forall w,
  P w -> P (set_app (with_redoStack ∅) (set_app (with_undoStack ∅) w)).
Hypothesis P_mutate : forall objs, keeps P (Editor.mutate objs).
Hypothesis P_undo : keeps P undo.
Hypothesis P_redo : keeps P redo.

Lemma keeps_fields (f : World -> World) :
  (forall w, undoStack (app (f w)) = undoStack (app w)) ->
  (forall w, redoStack (app (f w)) = redoStack (app w)) ->
  (forall w, is_Some (fabricCanvas (app w)) -> is_Some (fabricCanvas (app (f w)))) ->
  keeps P (modify f).
Proof.
  intros Hu Hr Hc. apply keeps_modify. intros w H.
  apply (P_fields w); auto.
Qed.

Lemma keeps_reset (k : M World unit) :
  keeps P k ->
  keeps P (bind (modify (set_app (with_undoStack ∅)))
             (fun _ => bind (modify (set_app (with_redoStack ∅))) (fun _ => k))).
Proof. intros Hk. apply keeps_modify_modify; auto. Qed.

Ltac inv_step :=
  first
    [ apply keeps_ret | apply keeps_throw | apply keeps_gets | apply keeps_lift
    | apply keeps_reset
    | apply keeps_bind; [|intros ?]
    | apply keeps_try_catch; [|intros ?]
    | apply keeps_for_of; intros ?
    | apply keeps_with_document
    | apply keeps_fields;
        [ intros ?; reflexivity | intros ?; reflexivity
        | intros ? ?; cbn; eauto ]
    | match goal with
      | |- keeps _ (match ?x with _ => _ end) => destruct x
      end ].

Lemma inv_log e : keeps P (log e).
Proof. unfold log. repeat inv_step. Qed.

Lemma inv_saveCurrentPageAnnotations : keeps P Store.saveCurrentPageAnnotations.
Proof.
  unfold Store.saveCurrentPageAnnotations, Store.setItem.
  repeat inv_step; apply inv_log.
Qed.

Lemma inv_flat_in_world {A} (c : M World A) :
  keeps P c -> keeps (fun s : Flatten.Flat => P (fst s)) (Flatten.in_world c).
Proof. apply keeps_in_world. Qed.

Lemma inv_on_page i op :
  keeps (fun s : Flatten.Flat => P (fst s)) (Flatten.on_page i op).
Proof. apply keeps_modify. intros s H. exact H. Qed.

Lemma inv_savePDF L : keeps P (Flatten.savePDF L).
Proof.
  unfold Flatten.savePDF, Flatten.saveAs, showMessage.
  repeat inv_step; try apply inv_saveCurrentPageAnnotations; try apply inv_log.
  unfold Flatten.savePDF_entry, Flatten.savePDF_object, Flatten.drawTextObject,
    Flatten.drawImageObject, Flatten.drawText.
  repeat first
    [ apply inv_on_page | apply inv_flat_in_world; apply inv_log
    | apply keeps_ret | apply keeps_throw | apply keeps_gets | apply keeps_lift
    | apply keeps_bind; [|intros ?]
    | apply keeps_try_catch; [|intros ?]
    | apply keeps_for_of; intros ?
    | match goal with
      | |- keeps _ (match ?x with _ => _ end) => destruct x
      end ].
Qed.

Lemma inv_renderCurrentPage : keeps P Editor.renderCurrentPage.
Proof.
  unfold Editor.renderCurrentPage, Editor.initializeFabricCanvas,
    Store.restorePageAnnotations, showMessage.
  repeat inv_step; try apply inv_saveCurrentPageAnnotations; try apply inv_log.
Qed.

Lemma inv_dispatch L e : keeps P (Editor.dispatch L e).
Proof.
  destruct e; cbn [Editor.dispatch].
  - apply P_mutate.
  - apply P_undo.
  - apply P_redo.
  - unfold Editor.previousPage. repeat inv_step; try apply inv_renderCurrentPage.
  - unfold Editor.nextPage. repeat inv_step; try apply inv_renderCurrentPage.
  - repeat inv_step; try apply inv_renderCurrentPage.
  - unfold Store.clearPageAnnotations. repeat inv_step; try apply inv_log.
  - apply inv_savePDF.
  - unfold Editor.handleFile, showMessage.
    repeat inv_step; try apply inv_renderCurrentPage; try apply inv_log.
  - unfold Editor.loadNewFile, Store.removeItem. 
    apply keeps_bind; [repeat inv_step|intros ?].
    apply keeps_bind; [repeat inv_step|intros ?].
    match goal with
    | |- keeps _ (bind ?a (fun _ => bind ?b (fun _ => ?k))) =>
        apply (keeps_reset k)
    end.
    repeat inv_step; try apply inv_log.
Qed.

Lemma inv_run L es w : P w -> P (Editor.run L es w).
Proof.
  revert w. induction es as [|e es IH]; intros w H; [exact H|].
  cbn [Editor.run]. apply IH. now apply inv_dispatch.
Qed.

Lemma inv_boot ls :
  P {| app := initialAppState; localStorage := ls; console := []; downloads := [] |} ->
  P (Editor.boot ls).
Proof.
  intros H. unfold Editor.boot.
  assert (K : keeps P Store.tryRestoreSession).
  { unfold Store.tryRestoreSession. repeat inv_step; try apply inv_log. }
  now apply K.
Qed.

End Invariant.

(** *** Every entry is a snapshot *)





(** *** The history operations find what they need *)

Lemma sound_fields w w' :
  undoStack (app w') = undoStack (app w) ->
  redoStack (app w') = redoStack (app w) ->
  (is_Some (fabricCanvas (app w)) -> is_Some (fabricCanvas (app w'))) ->
  sound w -> sound w'.
Proof.
  intros Hu Hr Hc [H1 H2]. split.
  - intros Hn. rewrite Hu, Hr. apply H1.
    destruct (fabricCanvas (app w)) as [c|]; [|reflexivity].
    destruct Hc as [c' Hc']; [eauto|congruence].
  - rewrite Hu, Hr. exact H2.
Qed.

Lemma sound_reset w :
  sound w -> sound (set_app (with_redoStack ∅) (set_app (with_undoStack ∅) w)).
Proof.
  intros _. split.
  - intros _ p. cbn [set_app app with_redoStack with_undoStack undoStack redoStack].
    now rewrite !HistoryBound.entries_empty.
  - intros p. cbn [set_app app with_redoStack with_undoStack undoStack redoStack].
    now rewrite HistoryBound.entries_empty.
Qed.

Lemma sound_mutate objs : keeps sound (Editor.mutate objs).
Proof.
  intros w [H1 H2]. destruct (fabricCanvas (app w)) as [c|] eqn:Hc.
  2:{ unfold Editor.mutate, bind, gets. cbn [fst snd]. rewrite Hc.
      split; [intros _; now apply H1|exact H2]. }
  rewrite (mutate_run objs w c Hc). cbn [snd]. split.
  - cbn [set_app app with_redoStack with_undoStack with_fabricCanvas fabricCanvas].
    discriminate.
  - intros p.
    cbn [set_app app with_redoStack with_undoStack with_fabricCanvas undoStack
         redoStack currentPage].
    rewrite entries_insert.
    destruct (decide (currentPage (app w) = p)) as [<-|Hp]; [congruence|].
    intros Hne. apply H2 in Hne.
    unfold limit. rewrite lookup_insert_eq.
    destruct (50 <? _)%nat; now rewrite ?lookup_insert_ne by exact Hp.
Qed.

Lemma sound_canvas w p :
  sound w ->
  entries (undoStack (app w)) p <> [] \/ entries (redoStack (app w)) p <> [] ->
  is_Some (fabricCanvas (app w)).
Proof.
  intros [H1 _] Hne. destruct (fabricCanvas (app w)) as [c|]; [eauto|].
  destruct (H1 eq_refl p) as [Hu Hr]. destruct Hne; congruence.
Qed.

Lemma sound_undo : keeps sound undo.
Proof.
  intros w H.
  destruct (undoStack (app w) !! currentPage (app w)) as [l|] eqn:Hu.
  2:{ rewrite (proj1 (undo_redo_empty w)); [exact H|].
      unfold entries. now rewrite Hu. }
  destruct l as [|x l _] using rev_ind.
  { rewrite (proj1 (undo_redo_empty w)); [exact H|].
    unfold entries. now rewrite Hu. }
  destruct (sound_canvas w (currentPage (app w)) H) as [c Hc].
  { left. unfold entries. rewrite Hu. now destruct l. }
  rewrite (undo_run w c l x Hc Hu). destruct H as [H1 H2]. split.
  - cbn [snd app with_fabricCanvas fabricCanvas]. discriminate.
  - intros p.
    cbn [snd app with_fabricCanvas with_undoStack with_redoStack undoStack redoStack].
    rewrite entries_insert, lookup_insert.
    destruct (decide (currentPage (app w) = p)) as [<-|Hp]; [eauto|apply H2].
Qed.

Lemma sound_redo : keeps sound redo.
Proof.
  intros w H.
  destruct (redoStack (app w) !! currentPage (app w)) as [l|] eqn:Hr.
  2:{ rewrite (proj2 (undo_redo_empty w)); [exact H|].
      unfold entries. now rewrite Hr. }
  destruct l as [|x l _] using rev_ind.
  { rewrite (proj2 (undo_redo_empty w)); [exact H|].
    unfold entries. now rewrite Hr. }
  assert (Hne : entries (redoStack (app w)) (currentPage (app w)) <> []).
  { unfold entries. rewrite Hr. now destruct l. }
  destruct (sound_canvas w (currentPage (app w)) H) as [c Hc]; [now right|].
  destruct (proj2 H _ Hne) as [lu Hu].
  rewrite (redo_run w c l x lu Hc Hr Hu). destruct H as [H1 H2]. split.
  - cbn [snd app with_fabricCanvas fabricCanvas]. discriminate.
  - intros p.
    cbn [snd app with_fabricCanvas with_undoStack with_redoStack undoStack redoStack].
    rewrite entries_insert, lookup_insert.
    destruct (decide (currentPage (app w) = p)) as [<-|Hp]; [eauto|apply H2].
Qed.

Lemma sound_run L ls es : sound (Editor.run L es (Editor.boot ls)).
Proof.
  assert (H0 : sound {| app := initialAppState; localStorage := ls;
                        console := []; downloads := [] |}).
  { split; intros; cbn [app initialAppState undoStack redoStack] in *;
      rewrite ?HistoryBound.entries_empty in *; [auto|congruence]. }
  apply (inv_run sound sound_fields sound_reset sound_mutate sound_undo sound_redo).
  now apply (inv_boot sound sound_fields).
Qed.

(** X7.  From start-up and after any sequence of user events, no history
    operation throws: an undo, a redo and the handling of a mutation event
    (which needs a canvas to occur) all return normally. *)
Theorem history_never_throws (L : Libs) (ls : Storage) (es : list Editor.Event)
    (objs : list FabricObject.t) :
  let w := Editor.run L es (Editor.boot ls) in
  fst (undo w) = Normal tt /\ fst (redo w) = Normal tt /\
  fst (Editor.mutate objs w) = Normal tt /\
  (is_Some (fabricCanvas (app w)) -> fst (saveUndoState w) = Normal tt).
Proof.
  intros w. pose proof (sound_run L ls es) as H. fold w in H. repeat split.
  - destruct (undoStack (app w) !! currentPage (app w)) as [l|] eqn:Hu.
    2:{ rewrite (proj1 (undo_redo_empty w)); [reflexivity|].
        unfold entries. now rewrite Hu. }
    destruct l as [|x l _] using rev_ind.
    { rewrite (proj1 (undo_redo_empty w)); [reflexivity|].
      unfold entries. now rewrite Hu. }
    destruct (sound_canvas w (currentPage (app w)) H) as [c Hc].
    { left. unfold entries. rewrite Hu. now destruct l. }
    now rewrite (undo_run w c l x Hc Hu).
  - destruct (redoStack (app w) !! currentPage (app w)) as [l|] eqn:Hr.
    2:{ rewrite (proj2 (undo_redo_empty w)); [reflexivity|].
        unfold entries. now rewrite Hr. }
    destruct l as [|x l _] using rev_ind.
    { rewrite (proj2 (undo_redo_empty w)); [reflexivity|].
      unfold entries. now rewrite Hr. }
    assert (Hne : entries (redoStack (app w)) (currentPage (app w)) <> []).
    { unfold entries. rewrite Hr. now destruct l. }
    destruct (sound_canvas w (currentPage (app w)) H) as [c Hc]; [now right|].
    destruct (proj2 H _ Hne) as [lu Hu].
    now rewrite (redo_run w c l x lu Hc Hr Hu).
  - destruct (fabricCanvas (app w)) as [c|] eqn:Hc.
    + now rewrite (mutate_run objs w c Hc).
    + unfold Editor.mutate, bind, gets. cbn [fst snd]. now rewrite Hc.
  - intros [c Hc]. now rewrite (saveUndoState_run w c Hc).
Qed.

Lemma history_never_throws_witness :
  fst (saveUndoState Examples.edited) = Normal tt.
Proof.
  apply (proj2 (proj2 (proj2
           (history_never_throws Examples.libs Examples.storage
              [Editor.HandleFile "a.pdf" []; Editor.Mutate [Examples.note];
               Editor.Mutate [Examples.note; Examples.note]] [])))).
  vm_compute. eexists. reflexivity.
Defined.



End HistoryInvariants.

(** ** The annotation store, the session and the pages *)

Module StoreExtras.
Import StoreFacts Runs.

Lemma lookup_delete_ne {V} k k' (o : list (string * V)) :
  k <> k' -> JSObject.lookup k' (JSObject.delete k o) = JSObject.lookup k' o.
Proof.
  intros Hne. induction o as [|[k0 v0] o IH]; [reflexivity|]. cbn.
  destruct (String.eqb k0 k) eqn:E.
  - apply String.eqb_eq in E. subst k0.
    apply String.eqb_neq in Hne. now rewrite Hne.
  - cbn. now rewrite IH.
Qed.

Lemma lookup_None_not_key {V} k (o : list (string * V)) :
  k ∉ map fst o -> JSObject.lookup k o = None.
Proof.
  induction o as [|[k0 v0] o IH]; [reflexivity|]. cbn. intros Hn.
  rewrite not_elem_of_cons in Hn. destruct Hn as [Hne Hn].
  destruct (String.eqb k0 k) eqn:E; [|now apply IH].
  apply String.eqb_eq in E. congruence.
Qed.

Lemma lookup_delete_eq {V} k (o : list (string * V)) :
  NoDup (map fst o) -> JSObject.lookup k (JSObject.delete k o) = None.
Proof.
  induction o as [|[k0 v0] o IH]; [reflexivity|]. cbn. intros Hnd.
  apply NoDup_cons in Hnd as [Hn Hnd].
  destruct (String.eqb k0 k) eqn:E.
  - apply String.eqb_eq in E. subst k0. now apply lookup_None_not_key.
  - cbn. rewrite E. now apply IH.
Qed.




(** X10.  Clearing the current page (the store being an object, its keys
    are distinct): the canvas is emptied, the store has no entry for the
    page any more, the entries of the other pages are untouched, and
    restoring the page afterwards shows an empty canvas. *)
Theorem clear_removes_page (w : World) (c : Canvas.t) :
  fabricCanvas (app w) = Some c ->
  NoDup (map fst (annotations (app w))) ->
  let key := JSObject.key_of_nat (currentPage (app w)) in
  let w1 := snd (Store.clearPageAnnotations w) in
  fst (Store.clearPageAnnotations w) = Normal tt /\
  Canvas._objects <$> fabricCanvas (app w1) = Some [] /\
  JSObject.lookup key (annotations (app w1)) = None /\
  (forall k, k <> key ->
     JSObject.lookup k (annotations (app w1)) = JSObject.lookup k (annotations (app w))) /\
  Canvas._objects <$> fabricCanvas (app (snd (Store.restorePageAnnotations w1)))
  = Some [].
Proof.
  intros Hc Hnd key w1. subst w1 key.
  unfold Store.clearPageAnnotations, bind, gets, modify, log, ret.
  cbn [fst snd]. rewrite Hc.
  cbn [fst snd set_app app with_fabricCanvas with_annotations fabricCanvas
       annotations currentPage].
  repeat split.
  - now apply lookup_delete_eq.
  - intros k Hk. now apply lookup_delete_ne.
  - unfold Store.restorePageAnnotations, bind, gets, modify, log, ret.
    cbn [fst snd set_app app with_fabricCanvas with_annotations fabricCanvas
         annotations currentPage].
    now rewrite lookup_delete_eq.
Qed.

Lemma clear_removes_page_witness :
  let w := snd (Store.saveCurrentPageAnnotations Examples.edited) in
  JSObject.lookup "1" (annotations (app w)) <> None /\
  JSObject.lookup "1" (annotations (app (snd (Store.clearPageAnnotations w)))) = None.
Proof.
  intros w. split; [vm_compute; discriminate|].
  refine (proj1 (proj2 (proj2 (clear_removes_page w
            (Canvas.mk (1836 # 2) (2376 # 2) [Examples.note; Examples.note]) _ _)))).
  - vm_compute. reflexivity.
  - vm_compute. repeat constructor. intros H. inversion H.
Defined.

(** X11.  What a session saves is what the next session starts with: after
    the annotations are saved with a local storage that accepts the write,
    a start-up on that storage restores exactly the store in memory.  On a
    storage without the item, a start-up leaves the store empty and logs
    nothing. *)
Theorem session_round_trip (w : World) (c : Canvas.t) :
  fabricCanvas (app w) = Some c ->
  writable (localStorage w) = true ->
  let w1 := snd (Store.saveCurrentPageAnnotations w) in
  annotations (app (Editor.boot (localStorage w1))) = annotations (app w1) /\
  (forall ls, pdfEditorAnnotations ls = None ->
     Editor.boot ls
     = {| app := initialAppState; localStorage := ls; console := []; downloads := [] |}).
Proof.
  intros Hc Hw w1. subst w1. split.
  - unfold Store.saveCurrentPageAnnotations, Store.setItem, try_catch, log, bind,
      gets, modify, throw, ret.
    cbn [fst snd]. rewrite Hc. cbn [fst snd set_app app localStorage]. rewrite Hw.
    reflexivity.
  - intros ls Hls. unfold Editor.boot, Store.tryRestoreSession, bind, gets, ret.
    cbn [fst snd localStorage]. now rewrite Hls.
Qed.

Lemma session_round_trip_witness :
  annotations (app (Editor.boot
     (localStorage (snd (Store.saveCurrentPageAnnotations Examples.edited)))))
  = [("1", snapshot [Examples.note; Examples.note])].
Proof.
  refine (proj1 (session_round_trip Examples.edited
            (Canvas.mk (1836 # 2) (2376 # 2) [Examples.note; Examples.note]) _ _)).
  - vm_compute. reflexivity.
  - reflexivity.
Defined.

End StoreExtras.

Module NavigationExtras.
Import StoreFacts StoreExtras Runs.



(** Rendering leaves the document, the page numbers and the history
    alone. *)
Lemma renderCurrentPage_frame w :
  let a' := app (snd (Editor.renderCurrentPage w)) in
  currentPage a' = currentPage (app w) /\ totalPages a' = totalPages (app w) /\
  pdfDoc a' = pdfDoc (app w) /\ pdfBytes a' = pdfBytes (app w) /\
  undoStack a' = undoStack (app w) /\ redoStack a' = redoStack (app w).
Proof.
  set (P := fun w' : World =>
              currentPage (app w') = currentPage (app w)
              /\ totalPages (app w') = totalPages (app w)
              /\ pdfDoc (app w') = pdfDoc (app w)
              /\ pdfBytes (app w') = pdfBytes (app w)
              /\ undoStack (app w') = undoStack (app w)
              /\ redoStack (app w') = redoStack (app w)).
  assert (K : keeps P Editor.renderCurrentPage)
    by (unfold Editor.renderCurrentPage; keeps_auto).
  apply (K w). unfold P. repeat split.
Qed.









(** X14.  Opening a file that PDF.js cannot read: the error is caught, the
    bytes and the name kept are those of the file that failed, and the
    PDF.js document, the pages, the canvas, the store and the histories are
    those of before. *)
Theorem handleFile_failed_load (L : Libs) (name : string) (bytes : Bytes)
    (e : JsError) (w : World) :
  getDocument L bytes = Throw e ->
  fst (Editor.handleFile L name bytes w) = Normal tt /\
  app (snd (Editor.handleFile L name bytes w))
  = with_file (pdfDoc (app w)) (Some bytes) (with_originalFileName name (app w)) /\
  localStorage (snd (Editor.handleFile L name bytes w)) = localStorage w /\
  downloads (snd (Editor.handleFile L name bytes w)) = downloads w.
Proof.
  intros Hg. unfold Editor.handleFile, showMessage, log, try_catch, bind, modify, lift.
  cbn [fst snd set_app app]. rewrite Hg. repeat split.
Qed.

Lemma handleFile_failed_load_witness :
  let L := {| getDocument := fun _ => Throw LibraryError;
              PDFDocument_load := PDFDocument_load Examples.libs;
              fetch := fetch Examples.libs; embedPng := embedPng Examples.libs;
              embedJpg := embedJpg Examples.libs;
              encodable := encodable Examples.libs |} in
  let a' := app (snd (Editor.handleFile L "bad.pdf" [] Examples.edited)) in
  pdfBytes a' = Some [] /\ pdfDoc a' = Some Examples.twoPages.
Proof.
  intros L a'.
  destruct (handleFile_failed_load L "bad.pdf" [] LibraryError Examples.edited eq_refl)
    as (_ & H & _).
  subst a'. rewrite H. split; reflexivity.
Defined.

(** Saving without a document only reports it. *)
Lemma savePDF_no_document L w :
  pdfBytes (app w) = None \/ pdfDoc (app w) = None ->
  Flatten.savePDF L w
  = (Normal tt,
     mkWorld (app w) (localStorage w)
       (console w ++ [StatusMessage "error" "No PDF loaded"]) (downloads w)).
Proof.
  intros H. unfold Flatten.savePDF, bind, gets. cbn [fst snd].
  destruct (pdfBytes (app w)), (pdfDoc (app w)), H; try discriminate; reflexivity.
Qed.

(** X15.  After [loadNewFile] there is no document, the store and both
    histories are empty and the item is gone from local storage, while the
    canvas and its objects stay; a save then only reports that no PDF is
    loaded: nothing is downloaded and nothing is written. *)
Theorem loadNewFile_resets (L : Libs) (w : World) :
  let w1 := snd (Editor.loadNewFile w) in
  fst (Editor.loadNewFile w) = Normal tt /\
  (pdfDoc (app w1) = None /\ pdfBytes (app w1) = None /\ annotations (app w1) = [] /\
   undoStack (app w1) = ∅ /\ redoStack (app w1) = ∅ /\
   pdfEditorAnnotations (localStorage w1) = None /\
   fabricCanvas (app w1) = fabricCanvas (app w)) /\
  Flatten.savePDF L w1
  = (Normal tt,
     mkWorld (app w1) (localStorage w1)
       (console w1 ++ [StatusMessage "error" "No PDF loaded"]) (downloads w1)).
Proof.
  intros w1. split; [reflexivity|]. split; [repeat split|].
  apply savePDF_no_document. now left.
Qed.

(** *** The current page stays within the document *)

Lemma bounds_fields (f : World -> World) :
  (forall w, currentPage (app (f w)) = currentPage (app w)) ->
  (forall w, totalPages (app (f w)) = totalPages (app w)) ->
  keeps page_in_bounds (modify f).
Proof.
  intros Hc Ht. apply keeps_modify. intros w H. unfold page_in_bounds.
  now rewrite Hc, Ht.
Qed.

Ltac bounds_step :=
  first
    [ apply keeps_ret | apply keeps_throw | apply keeps_gets | apply keeps_lift
    | match goal with
      | |- keeps _ (bind (modify _) (fun _ => bind (modify _) _)) =>
          apply HistoryInvariants.keeps_modify_modify;
          [ let H := fresh in
            intros ? H; destruct H; unfold page_in_bounds; cbn; lia |]
      end
    | apply keeps_bind; [|intros ?]
    | apply keeps_try_catch; [|intros ?]
    | apply keeps_for_of; intros ?
    | apply keeps_in_world
    | apply keeps_with_document
    | apply bounds_fields; intros ?; reflexivity
    | apply keeps_modify; let H := fresh in intros ? H; exact H
    | match goal with
      | |- keeps _ (match ?x with _ => _ end) => destruct x
      end ].

Lemma bounds_renderCurrentPage : keeps page_in_bounds Editor.renderCurrentPage.
Proof.
  intros w H. destruct (renderCurrentPage_frame w) as (F1 & F2 & _).
  unfold page_in_bounds. now rewrite F1, F2.
Qed.

Lemma bounds_dispatch L e : keeps page_in_bounds (Editor.dispatch L e).
Proof.
  destruct e; cbn [Editor.dispatch].
  - unfold Editor.mutate, History.saveUndoState, History.update_undo,
      History.update_redo, the_canvas.
    repeat bounds_step.
  - unfold History.undo, History.restore, History.update_undo,
      History.update_redo, the_canvas, log.
    repeat bounds_step.
  - unfold History.redo, History.restore, History.update_undo,
      History.update_redo, the_canvas, log.
    repeat bounds_step.
  - intros w H. unfold Editor.previousPage. unfold bind at 1. unfold gets.
    cbn [fst snd]. destruct (1 <? currentPage (app w))%nat eqn:E; [|exact H].
    apply Nat.ltb_lt in E. unfold bind, modify. cbn [fst snd].
    apply bounds_renderCurrentPage. destruct H as [H1 H2].
    unfold page_in_bounds. cbn [set_app app with_currentPage currentPage totalPages].
    lia.
  - intros w H. unfold Editor.nextPage. unfold bind at 1. unfold gets.
    cbn [fst snd].
    destruct (currentPage (app w) <? totalPages (app w))%nat eqn:E; [|exact H].
    apply Nat.ltb_lt in E. unfold bind, modify. cbn [fst snd].
    apply bounds_renderCurrentPage. destruct H as [H1 H2].
    unfold page_in_bounds. cbn [set_app app with_currentPage currentPage totalPages].
    lia.
  - apply keeps_bind; [|intros ?; apply bounds_renderCurrentPage].
    apply bounds_fields; intros ?; reflexivity.
  - unfold Store.clearPageAnnotations, log. repeat bounds_step.
  - unfold Flatten.savePDF, Flatten.saveAs, showMessage, log,
      Store.saveCurrentPageAnnotations, Store.setItem.
    repeat bounds_step.
    unfold Flatten.savePDF_entry, Flatten.savePDF_object, Flatten.drawTextObject,
      Flatten.drawImageObject, Flatten.drawText, Flatten.on_page, log.
    repeat bounds_step.
  - unfold Editor.handleFile, showMessage, log.
    repeat bounds_step; apply bounds_renderCurrentPage.
  - unfold Editor.loadNewFile, Store.removeItem. repeat bounds_step.
Qed.

(** X16.  From start-up and after any sequence of user events the current
    page number is at least 1, and it is at most the number of pages of the
    document unless it is 1 (no document, or a document without pages). *)
Theorem current_page_in_bounds (L : Libs) (ls : Storage) (es : list Editor.Event) :
  let a := app (Editor.run L es (Editor.boot ls)) in
  1 <= currentPage a /\ (currentPage a <= totalPages a \/ currentPage a = 1).
Proof.
  cbv zeta. change (page_in_bounds (Editor.run L es (Editor.boot ls))).
  assert (H0 : page_in_bounds (Editor.boot ls)).
  { assert (K : keeps page_in_bounds Store.tryRestoreSession)
      by (unfold Store.tryRestoreSession, log; repeat bounds_step).
    apply K. unfold page_in_bounds. cbn. lia. }
  revert H0. generalize (Editor.boot ls).
  induction es as [|e es IH]; intros w H; [exact H|].
  cbn [Editor.run]. apply IH. now apply bounds_dispatch.
Qed.

(** X17.  When the current page is a page of the document, the navigation
    buttons tell what the navigation does: "previous" is disabled exactly
    when [previousPage] leaves the page number as it is, and "next" exactly
    when [nextPage] does. *)
Theorem buttons_match_navigation (w : World) :
  1 <= currentPage (app w) <= totalPages (app w) ->
  (Toolbar.btnPrevPage (Toolbar.updatePageInfo (app w)) = true
   <-> currentPage (app (snd (Editor.previousPage w))) = currentPage (app w)) /\
  (Toolbar.btnNextPage (Toolbar.updatePageInfo (app w)) = true
   <-> currentPage (app (snd (Editor.nextPage w))) = currentPage (app w)).
Proof.
  intros Hb. cbn [Toolbar.updatePageInfo Toolbar.btnPrevPage Toolbar.btnNextPage].
  rewrite !Nat.eqb_eq. split.
  - unfold Editor.previousPage. unfold bind at 1. unfold gets. cbn [fst snd].
    destruct (1 <? currentPage (app w))%nat eqn:E.
    + apply Nat.ltb_lt in E. unfold bind, modify. cbn [fst snd].
      destruct (renderCurrentPage_frame
                  (set_app (with_currentPage (currentPage (app w) - 1)) w))
        as (F1 & _).
      rewrite F1. cbn [set_app app with_currentPage currentPage]. lia.
    + apply Nat.ltb_ge in E. cbn [ret fst snd]. lia.
  - unfold Editor.nextPage. unfold bind at 1. unfold gets. cbn [fst snd].
    destruct (currentPage (app w) <? totalPages (app w))%nat eqn:E.
    + apply Nat.ltb_lt in E. unfold bind, modify. cbn [fst snd].
      destruct (renderCurrentPage_frame
                  (set_app (with_currentPage (currentPage (app w) + 1)) w))
        as (F1 & _).
      rewrite F1. cbn [set_app app with_currentPage currentPage]. lia.
    + apply Nat.ltb_ge in E. cbn [ret fst snd]. lia.
Qed.

Lemma buttons_match_navigation_witness :
  Toolbar.btnPrevPage (Toolbar.updatePageInfo (app Examples.edited)) = true
  <-> currentPage (app (snd (Editor.previousPage Examples.edited)))
      = currentPage (app Examples.edited).
Proof.
  apply (buttons_match_navigation Examples.edited). vm_compute. lia.
Defined.



End NavigationExtras.

(** ** Flattening as a whole *)

Module FlattenExtras.
Import Flatten FabricObject FlattenFacts Runs.
Local Open Scope Q_scope.

Lemma extends_refl d : extends d d.
Proof.
  unfold extends. induction d as [|p d IH]; constructor; auto.
  repeat split. exists []. now rewrite app_nil_r.
Qed.

Lemma extends_alter_draw d d' i op :
  extends d d' -> extends d (alter (PDFLib.draw op) i d').
Proof.
  unfold extends. intros H. revert i.
  induction H as [|p p' d d' Hp H IH]; intros i; [constructor|].
  destruct i as [|i]; simpl; constructor; auto; [|apply IH].
  destruct Hp as (Hw & Hh & ops & Hc). repeat split; auto.
  exists (ops ++ [op]). cbn [PDFLib.draw PDFLib.draw_all PDFLib.content].
  rewrite Hc. now rewrite app_assoc.
Qed.

Lemma keeps_extends_entry L pdfjs rs d e :
  keeps (fun s : Flat => extends d (snd s)) (savePDF_entry L pdfjs rs e).
Proof.
  unfold savePDF_entry, savePDF_object, drawTextObject, drawImageObject, drawText.
  keeps_auto;
    first [ apply (FlattenClaims.keeps_pages_in_world (extends d))
          | apply keeps_modify; intros s H; now apply extends_alter_draw ].
Qed.

(** X19.  Whatever the store holds, and whether or not an entry makes the
    loop throw, flattening only adds drawing calls: the output document
    keeps its number of pages, every page keeps its size, and what a page
    held before stays, in place, before what is drawn on it. *)
Theorem flattening_only_appends (L : Libs) (pdfjs : PdfJs.Document) (rs : Q)
    (entries : list (string * PageAnnotations)) (w : World)
    (d : PDFLib.Document) :
  extends d (snd (snd (for_of entries (savePDF_entry L pdfjs rs) (w, d)))).
Proof.
  apply (keeps_for_of (fun s : Flat => extends d (snd s))).
  - intros e. apply keeps_extends_entry.
  - apply extends_refl.
Qed.

(** Flattening writes to the console and to the output document only. *)
Lemma frame_entry L pdfjs rs (a : AppState)
    (dl : list (string * PDFLib.Document)) e :
  keeps (fun s : Flat => (fun w => app w = a /\ downloads w = dl) (fst s))
        (savePDF_entry L pdfjs rs e).
Proof.
  unfold savePDF_entry, savePDF_object, drawTextObject, drawImageObject, drawText,
    on_page, log.
  keeps_auto.
Qed.

Lemma frame_save (dl : list (string * PDFLib.Document)) :
  keeps (fun w => downloads w = dl) Store.saveCurrentPageAnnotations.
Proof.
  unfold Store.saveCurrentPageAnnotations, Store.setItem, log. keeps_auto.
Qed.



Lemma frame_entries L pdfjs rs es w d :
  downloads (fst (snd (for_of es (savePDF_entry L pdfjs rs) (w, d)))) = downloads w.
Proof.
  apply (keeps_for_of
           (fun s : Flat => (fun w' => app w' = app w /\ downloads w' = downloads w) (fst s))
           es (savePDF_entry L pdfjs rs)
           (fun e => frame_entry L pdfjs rs (app w) (downloads w) e)
           (w, d) (conj eq_refl eq_refl)).
Qed.

(** X21.  [savePDF] never throws and downloads at most one file.  When the
    output library cannot read the bytes of the document, nothing is
    downloaded and the last thing the user is shown is the error message
    "Failed to save PDF". *)
Theorem savePDF_reports_failures (L : Libs) (w : World) :
  let w' := snd (savePDF L w) in
  fst (savePDF L w) = Normal tt /\
  (downloads w' = downloads w \/ exists f, downloads w' = downloads w ++ [f]) /\
  (forall bytes pdfjs e,
     pdfBytes (app w) = Some bytes -> pdfDoc (app w) = Some pdfjs ->
     PDFDocument_load L bytes = Throw e ->
     downloads w' = downloads w
     /\ last (console w') = Some (StatusMessage "error" "Failed to save PDF")).
Proof.
  cut (exists wf, savePDF L w = (Normal tt, wf)
                  /\ (downloads wf = downloads w
                      \/ exists f, downloads wf = downloads w ++ [f])
                  /\ (forall bytes pdfjs e,
                        pdfBytes (app w) = Some bytes -> pdfDoc (app w) = Some pdfjs ->
                        PDFDocument_load L bytes = Throw e ->
                        downloads wf = downloads w
                        /\ last (console wf)
                           = Some (StatusMessage "error" "Failed to save PDF"))).
  { intros (wf & E & H1 & H2). rewrite E. cbn [fst snd]. auto. }
  unfold savePDF. unfold bind at 1. unfold gets. cbn [fst snd].
  destruct (pdfBytes (app w)) as [bytes|] eqn:Hb;
    [destruct (pdfDoc (app w)) as [pdfjs|] eqn:Hd|];
    [| eexists; split; [reflexivity|]; split; [now left|]; intros; discriminate ..].
  set (w0 := snd (showMessage "Generating PDF..." "info" w)).
  pose proof (frame_save (downloads w) w0 eq_refl) as Hs3.
  unfold try_catch, showMessage, log, saveAs, with_document, bind, modify, lift, gets.
  cbn [fst snd].
  match goal with
  | |- context [Store.saveCurrentPageAnnotations ?x] => change x with w0
  end.
  destruct (Store.saveCurrentPageAnnotations w0) as [[[]|e1] w1] eqn:E1;
    cbn [fst snd] in Hs3.
  - destruct (PDFDocument_load L bytes) as [d|e2] eqn:Hload.
    + pose proof (frame_entries L pdfjs (renderScale (app w1))
                    (JSObject.entries (annotations (app w1))) w1 d) as Hfr.
      destruct (for_of (JSObject.entries (annotations (app w1)))
                  (savePDF_entry L pdfjs (renderScale (app w1))) (w1, d))
        as [[[]|e3] [w2 d2]] eqn:E2; cbn [fst snd] in Hfr |- *.
      * eexists. split; [reflexivity|]. cbn [downloads]. split.
        -- right. eexists. now rewrite Hfr, Hs3.
        -- intros ? ? ? Hbb _ Hthrow. congruence.
      * eexists. split; [reflexivity|]. cbn [downloads]. split.
        -- left. now rewrite Hfr, Hs3.
        -- intros ? ? ? Hbb _ Hthrow. congruence.
    + eexists. split; [reflexivity|]. cbn [downloads console]. split.
      * now left.
      * intros ? ? ? _ _ _. split; [assumption|].
        rewrite last_app. reflexivity.
  - eexists. split; [reflexivity|]. cbn [downloads console]. split.
    + now left.
    + intros ? ? ? _ _ _. split; [assumption|].
      rewrite last_app. reflexivity.
Qed.

Lemma savePDF_reports_failures_witness :
  let L := {| getDocument := getDocument Examples.libs;
              PDFDocument_load := fun _ => Throw LibraryError;
              fetch := fetch Examples.libs;
              embedPng := embedPng Examples.libs;
              embedJpg := embedJpg Examples.libs;
              encodable := encodable Examples.libs |} in
  downloads (snd (savePDF L Examples.edited)) = downloads Examples.edited
  /\ last (console (snd (savePDF L Examples.edited)))
     = Some (StatusMessage "error" "Failed to save PDF").
Proof.
  intros L.
  apply (proj2 (proj2 (savePDF_reports_failures L Examples.edited))
           [] Examples.twoPages LibraryError);
    vm_compute; reflexivity.
Defined.

End FlattenExtras.

(** ** Where an annotation lands, and its colour *)

Module GeometryExtras.
Import Flatten FabricObject FlattenFacts.
Local Open Scope Q_scope.

Lemma num_or_nonneg (q : Q) : JS.num_or (Some q) 0 == q.
Proof.
  unfold JS.num_or. destruct (Qeq_bool q 0) eqn:E; [|reflexivity].
  apply Qeq_bool_iff in E. now rewrite E.
Qed.

(** A box of the canvas, carried to the page by the factor
    [pageHeight / viewport.height] and flipped, lies on the page. *)
Lemma box_on_page (l t bw bh W H pw ph : Q) :
  0 <= l -> 0 <= t -> 0 <= bw -> 0 <= bh ->
  l + bw <= W -> t + bh <= H -> 0 < H -> 0 < ph ->
  W * ph == H * pw ->
  let k := ph / H in
  0 <= l * k /\ l * k + bw * k <= pw /\
  0 <= ph - (t + bh) * k /\ ph - (t + bh) * k + bh * k <= ph.
Proof.
  intros Hl Ht Hbw Hbh HW HH HposH Hposph Hasp k.
  assert (Hk : 0 < k).
  { unfold k, Qdiv. apply Qmult_lt_0_compat; [assumption|].
    now apply Qinv_lt_0_compat. }
  assert (HneH : ~ H == 0).
  { intros E. rewrite E in HposH. now apply Qlt_irrefl in HposH. }
  assert (HHk : H * k == ph) by (unfold k; now field).
  assert (HWk : W * k == pw).
  { assert (E : W * k == (W * ph) / H) by (unfold k; now field).
    rewrite E, Hasp. now field. }
  assert (Hk0 : 0 <= k) by now apply Qlt_le_weak.
  pose proof (Qmult_le_0_compat l k Hl Hk0) as H1.
  pose proof (Qmult_le_0_compat t k Ht Hk0) as H2.
  pose proof (Qmult_le_compat_r (l + bw) W k HW Hk0) as H3.
  pose proof (Qmult_le_compat_r (t + bh) H k HH Hk0) as H4.
  rewrite HWk in H3. rewrite HHk in H4.
  repeat split.
  - exact H1.
  - assert (E : l * k + bw * k == (l + bw) * k) by ring.
    rewrite E. exact H3.
  - assert (E : 0 == ph + - ph) by ring.
    rewrite E. apply Qplus_le_compat; [apply Qle_refl|]. now apply Qopp_le_compat.
  - assert (E : ph - (t + bh) * k + bh * k == ph + - (t * k)) by ring.
    rewrite E.
    assert (E' : ph + - (t * k) <= ph + - 0).
    { apply Qplus_le_compat; [apply Qle_refl|]. now apply Qopp_le_compat. }
    assert (E'' : ph + - 0 == ph) by ring.
    now rewrite E'' in E'.
Qed.

Section WithLibs.
Context (L : Libs).

(** X22.  An image that lies on the canvas lands on the page: for a canvas
    that has the proportions of the page, the rectangle [drawImageObject]
    draws, of the image's displayed size, lies within the page. *)
Theorem image_on_canvas_lands_on_page (i : nat) (obj : FabricObject.t)
    (vp : PdfJs.Viewport) (pw ph : Q) (w : World) (d : PDFLib.Document)
    (s : string) (bytes : Bytes) (img : PDFLib.Image)
    (l t w0 h0 sx sy : Q) :
  src obj = Some s -> s <> "" ->
  fetch L s = Normal bytes ->
  (if JS.includes "image/png" s then embedPng L bytes else embedJpg L bytes)
  = Normal img ->
  left obj = Some l -> top obj = Some t ->
  width obj = Some w0 -> height obj = Some h0 ->
  scaleX obj = Some sx -> scaleY obj = Some sy ->
  0 <= l -> 0 <= t -> 0 < w0 -> 0 < h0 -> 0 < sx -> 0 < sy ->
  l + w0 * sx <= PdfJs.width vp -> t + h0 * sy <= PdfJs.height vp ->
  0 < PdfJs.height vp -> 0 < ph ->
  PdfJs.width vp * ph == PdfJs.height vp * pw ->
  exists x y dw dh,
    snd (snd (drawImageObject L i obj vp ph (w, d)))
    = alter (PDFLib.draw (PDFLib.DrawImage img x y dw dh)) i d /\
    dw == w0 * sx * (ph / PdfJs.height vp) /\
    dh == h0 * sy * (ph / PdfJs.height vp) /\
    0 <= x /\ x + dw <= pw /\ 0 <= y /\ y + dh <= ph.
Proof.
  intros Hs Hne Hf He Hl Ht Hw Hh Hsx Hsy Pl Pt Pw Ph Psx Psy HW HH PH Pph Hasp.
  rewrite (drawImageObject_run L i obj vp ph w d s bytes img Hs Hne Hf He).
  cbn [snd]. rewrite Hl, Ht, Hw, Hh, Hsx, Hsy.
  rewrite (num_or_pos w0 _ Pw), (num_or_pos h0 _ Ph),
    (num_or_pos sx _ Psx), (num_or_pos sy _ Psy).
  do 4 eexists. split; [reflexivity|].
  split; [reflexivity|]. split; [reflexivity|].
  rewrite !num_or_nonneg.
  assert (Pbw : 0 <= w0 * sx)
    by (apply Qmult_le_0_compat; now apply Qlt_le_weak).
  assert (Pbh : 0 <= h0 * sy)
    by (apply Qmult_le_0_compat; now apply Qlt_le_weak).
  exact (box_on_page l t (w0 * sx) (h0 * sy) (PdfJs.width vp) (PdfJs.height vp)
           pw ph Pl Pt Pbw Pbh HW HH PH Pph Hasp).
Qed.

End WithLibs.

Lemma image_on_canvas_lands_on_page_witness :
  exists x y dw dh,
    snd (snd (drawImageObject Examples.libs 0 Examples.photo Examples.viewport1 792
                (Examples.blank, [Examples.letter])))
    = alter (PDFLib.draw (PDFLib.DrawImage (PDFLib.mkImage 200 100) x y dw dh)) 0%nat
        [Examples.letter] /\
    dw == 200 * (1 # 2) * (792 / PdfJs.height Examples.viewport1) /\
    dh == 100 * (1 # 2) * (792 / PdfJs.height Examples.viewport1) /\
    0 <= x /\ x + dw <= 612 /\ 0 <= y /\ y + dh <= 792.
Proof.
  apply (image_on_canvas_lands_on_page Examples.libs 0 Examples.photo Examples.viewport1
           612 792 Examples.blank [Examples.letter]
           "data:image/png;base64,iVBORw0KGgo=" [] (PDFLib.mkImage 200 100)
           40 10 200 100 (1 # 2) (1 # 2));
    try reflexivity; try discriminate; vm_compute; congruence.
Defined.

End GeometryExtras.

(** ** Colours *)

Module ColourExtras.
Import Flatten FabricObject FlattenFacts.
Local Open Scope Q_scope.

Lemma digit_val_range c d : JS.digit_val c = Some d -> (0 <= d)%Z.
Proof.
  unfold JS.digit_val.
  repeat match goal with
         | |- context [if ?b then _ else _] =>
             let E := fresh "E" in destruct b eqn:E
         end; try discriminate; intros [= Hd];
    rewrite andb_true_iff, !Z.leb_le in *; lia.
Qed.

(** Two hexadecimal digits read in radix 16. *)
Lemma parseInt_hex2 c1 c2 d1 d2 :
  JS.digit_val c1 = Some d1 -> (d1 < 16)%Z ->
  JS.digit_val c2 = Some d2 -> (d2 < 16)%Z ->
  JS.parseInt (String c1 (String c2 "")) (Some 16%Z) = Some (16 * d1 + d2)%Z.
Proof.
  intros H1 L1 H2 L2.
  destruct c1 as [[] [] [] [] [] [] [] []]; vm_compute in H1; try discriminate H1;
    injection H1 as <-; try (exfalso; lia); clear L1;
    destruct c2 as [[] [] [] [] [] [] [] []]; vm_compute in H2; try discriminate H2;
    injection H2 as <-; try (exfalso; lia); reflexivity.
Qed.

Lemma digit_not_hash c d : JS.digit_val c = Some d -> Ascii.eqb c "#" = false.
Proof.
  intros H.
  destruct c as [[] [] [] [] [] [] [] []]; try reflexivity; vm_compute in H;
    discriminate H.
Qed.

Lemma component_in_range (z : Z) :
  (0 <= z <= 255)%Z ->
  0 <= inject_Z z / 255 /\ inject_Z z / 255 <= 1.
Proof.
  intros Hz. unfold Qle, Qdiv, Qmult, Qinv, inject_Z. cbn. lia.
Qed.

(** X23.  A colour written as six hexadecimal digits, with or without a
    leading [#], is read as three numbers (none is [NaN]) in the range 0..1,
    and [rgb] accepts them: such a colour never makes the drawing of a
    text fail. *)
Theorem hex_colour_in_range (digits : string) :
  String.length digits = 6%nat ->
  Forall (fun c => exists d, JS.digit_val c = Some d /\ (d < 16)%Z)
         (list_ascii_of_string digits) ->
  forall hex, hex = digits \/ hex = String "#" digits ->
  exists r g b,
    hexToRgb hex = (Some r, Some g, Some b) /\
    (0 <= r /\ r <= 1) /\ (0 <= g /\ g <= 1) /\ (0 <= b /\ b <= 1) /\
    PDFLib.rgb (Some r) (Some g) (Some b)
    = Normal (PDFLib.mkColor (Some r) (Some g) (Some b)).
Proof.
  intros Hlen Hall hex Hhex.
  destruct digits as [|c1 [|c2 [|c3 [|c4 [|c5 [|c6 [|? ?]]]]]]]; try discriminate Hlen.
  cbn [list_ascii_of_string] in Hall.
  repeat match goal with
         | H : Forall _ (_ :: _) |- _ =>
             let c := fresh "Hc" in
             apply Forall_cons in H; destruct H as [(? & c & ?) H]
         end.
  assert (E : JS.remove_first "#" hex
              = String c1 (String c2 (String c3 (String c4 (String c5 (String c6 "")))))).
  { destruct Hhex as [-> | ->]; cbn [JS.remove_first].
    - repeat match goal with
             | H : JS.digit_val ?c = Some _ |- context [Ascii.eqb ?c "#"] =>
                 rewrite (digit_not_hash _ _ H)
             end.
      reflexivity.
    - reflexivity. }
  unfold hexToRgb. rewrite E.
  unfold JS.substring. cbn [String.substring Nat.sub].
  repeat match goal with
         | H1 : JS.digit_val ?a = Some ?x, H2 : JS.digit_val ?b = Some ?y
           |- context [JS.parseInt (String ?a (String ?b "")) _] =>
             rewrite (parseInt_hex2 a b x y) by assumption
         end.
  repeat match goal with
         | H : JS.digit_val _ = Some _ |- _ => apply digit_val_range in H
         end.
  do 3 eexists. split; [reflexivity|].
  repeat match goal with
         | |- (0 <= inject_Z ?z / 255 /\ _ <= 1) /\ _ =>
             split; [apply component_in_range; lia|]
         end.
  unfold PDFLib.rgb, PDFLib.in_range.
  repeat match goal with
         | |- context [Qle_bool 0 (inject_Z ?z / 255)] =>
             let H := fresh in
             assert (H : 0 <= inject_Z z / 255 /\ inject_Z z / 255 <= 1)
               by (apply component_in_range; lia);
             destruct H as [?%Qle_bool_iff ?%Qle_bool_iff];
             replace (Qle_bool 0 (inject_Z z / 255)) with true by congruence;
             replace (Qle_bool (inject_Z z / 255) 1) with true by congruence
         end.
  reflexivity.
Qed.

Lemma hex_colour_in_range_witness :
  exists r g b,
    hexToRgb "#ff8000" = (Some r, Some g, Some b) /\
    (0 <= r /\ r <= 1) /\ (0 <= g /\ g <= 1) /\ (0 <= b /\ b <= 1) /\
    PDFLib.rgb (Some r) (Some g) (Some b)
    = Normal (PDFLib.mkColor (Some r) (Some g) (Some b)).
Proof.
  apply (hex_colour_in_range "ff8000").
  - reflexivity.
  - repeat constructor; eexists; (split; [vm_compute; reflexivity | lia]).
  - now right.
Defined.

End ColourExtras.

(** ** The toolbar and the calculator *)

Module ToolbarExtras.
Import FabricObject.
Local Open Scope Q_scope.

Lemma Math_min_le_l a b : Toolbar.Math_min a b <= a.
Proof.
  unfold Toolbar.Math_min. destruct (Qle_bool a b) eqn:E; [apply Qle_refl|].
  destruct (Qlt_le_dec b a) as [H|H]; [now apply Qlt_le_weak|].
  apply Qle_bool_iff in H. congruence.
Qed.

Lemma Math_min_le_r a b : Toolbar.Math_min a b <= b.
Proof.
  unfold Toolbar.Math_min. destruct (Qle_bool a b) eqn:E; [|apply Qle_refl].
  now apply Qle_bool_iff.
Qed.

Lemma Math_min_nonneg a b : 0 <= a -> 0 <= b -> 0 <= Toolbar.Math_min a b.
Proof. intros. unfold Toolbar.Math_min. now destruct (Qle_bool a b). Qed.

Lemma Qle_bool_false a b : Qle_bool a b = false -> b < a.
Proof.
  intros E. destruct (Qlt_le_dec b a) as [H|H]; [assumption|].
  apply Qle_bool_iff in H. congruence.
Qed.

Lemma scaled_fits (m i s : Q) : 0 < i -> s <= m / i -> i * s <= m.
Proof.
  intros Hi Hs.
  assert (E : m == i * (m / i)).
  { field. intros E. rewrite E in Hi. now apply Qlt_irrefl in Hi. }
  rewrite E. rewrite (Qmult_comm i s), (Qmult_comm i (m / i)).
  apply Qmult_le_compat_r; [assumption|now apply Qlt_le_weak].
Qed.

(** X24.  The image [handleImageSelect] puts on the canvas keeps its
    proportions and is never enlarged, and what is shown of it takes at most
    30 % of the PDF canvas in each direction. *)
Theorem selected_image_fits (canvasWidth canvasHeight imgWidth imgHeight : Q)
    (dataURL : string) :
  0 <= canvasWidth -> 0 <= canvasHeight -> 0 < imgWidth -> 0 < imgHeight ->
  let img := Toolbar.selectedImage canvasWidth canvasHeight dataURL imgWidth imgHeight in
  exists s,
    scaleX img = Some s /\ scaleY img = Some s /\
    width img = Some imgWidth /\ height img = Some imgHeight /\
    0 <= s /\ s <= 1 /\
    imgWidth * s <= canvasWidth * (3 # 10) /\
    imgHeight * s <= canvasHeight * (3 # 10).
Proof.
  intros Hcw Hch Hiw Hih img.
  exists (Toolbar.imageScale canvasWidth canvasHeight imgWidth imgHeight).
  do 4 (split; [reflexivity|]).
  unfold Toolbar.imageScale.
  set (maxWidth := canvasWidth * (3 # 10)).
  set (maxHeight := canvasHeight * (3 # 10)).
  assert (HmW : 0 <= maxWidth) by (apply Qmult_le_0_compat; [assumption|discriminate]).
  assert (HmH : 0 <= maxHeight) by (apply Qmult_le_0_compat; [assumption|discriminate]).
  assert (Ha : 0 <= maxWidth / imgWidth)
    by (apply Qle_shift_div_l; [assumption|now rewrite Qmult_0_l]).
  assert (Hb : 0 <= maxHeight / imgHeight)
    by (apply Qle_shift_div_l; [assumption|now rewrite Qmult_0_l]).
  destruct (negb (Qle_bool imgWidth maxWidth) || negb (Qle_bool imgHeight maxHeight))%bool
    eqn:E.
  - split; [now apply Math_min_nonneg|]. split.
    + apply orb_true_iff in E. destruct E as [E|E];
        apply negb_true_iff, Qle_bool_false in E.
      * eapply Qle_trans; [apply Math_min_le_l|].
        apply Qle_shift_div_r; [assumption|]. rewrite Qmult_1_l.
        now apply Qlt_le_weak.
      * eapply Qle_trans; [apply Math_min_le_r|].
        apply Qle_shift_div_r; [assumption|]. rewrite Qmult_1_l.
        now apply Qlt_le_weak.
    + split; apply scaled_fits; auto using Math_min_le_l, Math_min_le_r.
  - apply orb_false_iff in E. destruct E as [E1 E2].
    apply negb_false_iff, Qle_bool_iff in E1.
    apply negb_false_iff, Qle_bool_iff in E2.
    split; [discriminate|]. split; [apply Qle_refl|].
    rewrite !Qmult_1_r. auto.
Qed.

Lemma selected_image_fits_witness :
  exists s,
    scaleX (Toolbar.selectedImage 918 1188 "data:image/png;base64,AA==" 1000 500)
    = Some s /\
    0 <= s /\ s <= 1 /\ 1000 * s <= 918 * (3 # 10) /\ 500 * s <= 1188 * (3 # 10).
Proof.
  destruct (selected_image_fits 918 1188 1000 500 "data:image/png;base64,AA==")
    as (s & H1 & _ & _ & _ & H); try reflexivity; try discriminate.
  exists s. auto.
Defined.

(** X25.  [calculateSimpleGrowthRate] throws exactly when the old value is
    zero; otherwise the old value grown by the rate it returns is the new
    value. *)
Theorem growth_rate_inverts (oldValue newValue : Q) :
  (oldValue == 0 <->
   Calculator.calculateSimpleGrowthRate oldValue newValue
   = inl "Old value cannot be zero for growth rate calculation") /\
  (~ oldValue == 0 ->
   exists rate,
     Calculator.calculateSimpleGrowthRate oldValue newValue = inr rate /\
     oldValue * (1 + rate / 100) == newValue).
Proof.
  unfold Calculator.calculateSimpleGrowthRate.
  destruct (Qeq_bool oldValue 0) eqn:E.
  - apply Qeq_bool_iff in E. split; [tauto|]. intros H. now destruct H.
  - apply Qeq_bool_neq in E. split; [split; [tauto|discriminate]|].
    intros _. eexists. split; [reflexivity|]. now field.
Qed.

Lemma growth_rate_inverts_witness :
  exists rate,
    Calculator.calculateSimpleGrowthRate 80 100 = inr rate /\
    80 * (1 + rate / 100) == 100.
Proof.
  apply (proj2 (growth_rate_inverts 80 100)). discriminate.
Defined.

End ToolbarExtras.
